(** * flask_accepts: the [accepts] and [responds] decorators

    A shallow embedding of [flask_accepts/decorators/decorators.py], of
    the carrier class of [flask_accepts/test/wrapper.py] and of
    [ApiFlask.make_response] of [flask_accepts/test/fixtures.py].

    The decorators are glue code around three collaborators (the request
    parser, the Marshmallow schema and the Flask request/response objects),
    so the embedding consists of

    - a small universe of Python values, with truthiness, subscripting and
      [dict.update];
    - a store of mutable objects (exceptions, carriers, responses) addressed
      by location, so that "the same object, mutated in place" is a
      statement about one location of the heap;
    - a state-and-exception monad in which the bodies of the two [inner]
      functions are written statement by statement;
    - the collaborators as records of functions, over which every theorem
      is universally quantified.

    Modelling boundaries, stated once:
    - instances are truthy (no class of the model defines [__bool__] or
      [__len__]) and every raised object derives from [Exception], hence is
      caught by [except Exception];
    - dictionaries are values keyed by strings; an in-place update of a
      dictionary reached through an attribute is written back to that
      attribute;
    - [request.get_json()] returns the decoded body of the request or
      raises, as the request says; [jsonify], [json.dumps] and the
      constructor of [Response] are collaborators that return or raise;
    - registration with the documentation system (lines 79-86) attaches
      metadata to [inner] and is not part of the run-time behaviour. *)

From stdpp Require Import gmap strings list fin_maps.
From Stdlib Require Import ZArith.

Local Open Scope string_scope.
Local Open Scope list_scope.
Local Set Warnings "-register-all".

(** ** Python values *)

(** Locations of the heap. *)
Abbreviation loc := nat (only parsing).

Inductive pyval : Type :=
  | VNone
  | VBool (b : bool)
  | VInt (z : Z)
  | VStr (s : string)
  | VList (l : list pyval)
  | VDict (d : list (string * pyval))
  | VRef (l : loc).

(** [bool(v)]. *)
Definition truthy (v : pyval) : bool :=
  match v with
  | VNone => false
  | VBool b => b
  | VInt z => negb (Z.eqb z 0)
  | VStr s => negb (String.eqb s "")
  | VList l => match l with [] => false | _ => true end
  | VDict d => match d with [] => false | _ => true end
  | VRef _ => true
  end.

(** [isinstance(v, dict)]. *)
Definition is_dict (v : pyval) : bool :=
  match v with VDict _ => true | _ => false end.

(** Dictionaries keep insertion order: [d[k] = v] overwrites in place when
    the key is present and appends otherwise. *)
Fixpoint dict_get (k : string) (d : list (string * pyval)) : option pyval :=
  match d with
  | [] => None
  | (k', v) :: d' => if String.eqb k k' then Some v else dict_get k d'
  end.

Fixpoint dict_set (k : string) (v : pyval) (d : list (string * pyval))
  : list (string * pyval) :=
  match d with
  | [] => [(k, v)]
  | (k', v') :: d' =>
      if String.eqb k k' then (k, v) :: d' else (k', v') :: dict_set k v d'
  end.

(** [d.update(other)]. *)
Definition dict_update (d other : list (string * pyval))
  : list (string * pyval) :=
  fold_left (fun acc kv => dict_set (fst kv) (snd kv) acc) other d.

(** ** Objects and the heap *)

(** An instance: the method resolution order of its class (the class
    itself first) and its attribute dictionary. *)
Record pyobj : Type := PyObj {
  obj_mro : list string;
  obj_attrs : gmap string pyval
}.

Abbreviation heap := (list pyobj) (only parsing).

Definition alloc (o : pyobj) (h : heap) : loc * heap := (List.length h, h ++ [o]).

Definition set_attr (k : string) (v : pyval) (o : pyobj) : pyobj :=
  PyObj (obj_mro o) (<[k:=v]> (obj_attrs o)).

(** Classes of the built-in values, for [isinstance]. *)
Definition builtin_mro (v : pyval) : list string :=
  match v with
  | VNone => ["NoneType"; "object"]
  | VBool _ => ["bool"; "int"; "object"]
  | VInt _ => ["int"; "object"]
  | VStr _ => ["str"; "object"]
  | VList _ => ["list"; "object"]
  | VDict _ => ["dict"; "object"]
  | VRef _ => []
  end.

Definition mro_of (h : heap) (v : pyval) : list string :=
  match v with
  | VRef l => match h !! l with Some o => obj_mro o | None => [] end
  | _ => builtin_mro v
  end.

(** [isinstance(v, cls)]. *)
Definition isinstance (h : heap) (v : pyval) (cls : string) : bool :=
  existsb (String.eqb cls) (mro_of h v).

(** Built-in exceptions raised by the interpreter itself. *)
Definition exc_mro (cls : string) : list string :=
  [cls; "Exception"; "BaseException"; "object"].

Definition new_exception (cls msg : string) : pyobj :=
  PyObj (exc_mro cls) {[ "args" := VList [VStr msg] ]}.

(** ** The request and the world *)

(** What a collaborator does when called: it returns, or it raises a new
    exception object. *)
Inductive outcome (A : Type) : Type :=
  | Returns (a : A)
  | Raises (o : pyobj).
Arguments Returns {A} a.
Arguments Raises {A} o.

(** The request proxy: what [get_json()] does on its body (it returns the
    decoded value, or raises on a body that cannot be decoded), and the two
    attributes the request decorator attaches ([None] while the attribute
    is not set). *)
Record request : Type := Request {
  req_json : outcome pyval;
  parsed_args : option pyval;
  parsed_obj : option pyval
}.

(** Calls made to the collaborators, in order. *)
Inductive event : Type :=
  | EvParseArgs
  | EvLoad (many : bool) (json : pyval)
  | EvDump (many : bool) (v : pyval)
  | EvHandler (args : list pyval) (kwargs : list (string * pyval))
  | EvJsonify (v : pyval).

Record world : Type := World {
  w_heap : heap;
  w_req : request;
  w_log : list event
}.

(** ** The monad of function bodies *)

Inductive result (A : Type) : Type :=
  | Ok (a : A)
  | Raise (e : loc).
Arguments Ok {A} a.
Arguments Raise {A} e.

Definition M (A : Type) : Type := world -> result A * world.

Definition ret {A} (a : A) : M A := fun w => (Ok a, w).

Definition bind {A B} (m : M A) (f : A -> M B) : M B :=
  fun w => match m w with
           | (Ok a, w') => f a w'
           | (Raise e, w') => (Raise e, w')
           end.

Notation "x <- m ;; k" := (bind m (fun x => k))
  (at level 100, m at next level, right associativity).
Notation "m ;;; k" := (bind m (fun _ => k))
  (at level 100, right associativity).

(** [raise e] for an object that is already in the heap. *)
Definition raise {A} (e : loc) : M A := fun w => (Raise e, w).

(** Allocation of a new instance. *)
Definition new (o : pyobj) : M pyval :=
  fun w => let '(l, h) := alloc o (w_heap w) in
           (Ok (VRef l), World h (w_req w) (w_log w)).

(** [raise cls(msg)]. *)
Definition raise_new {A} (o : pyobj) : M A :=
  fun w => let '(l, h) := alloc o (w_heap w) in
           (Raise l, World h (w_req w) (w_log w)).

Definition emit (ev : event) : M unit :=
  fun w => (Ok tt, World (w_heap w) (w_req w) (w_log w ++ [ev])).

(** The result of a collaborator call enters the monad. *)
Definition lift {A} (o : outcome A) : M A :=
  match o with
  | Returns a => ret a
  | Raises e => raise_new e
  end.

(** [try: m  except Exception as e: handler(e)]. *)
Definition try_except {A} (m : M A) (handler : loc -> M A) : M A :=
  fun w => match m w with
           | (Ok a, w') => (Ok a, w')
           | (Raise e, w') => handler e w'
           end.

(** [hasattr(v, k)]. *)
Definition hasattr (v : pyval) (k : string) : M bool :=
  fun w => match v with
           | VRef l => match w_heap w !! l with
                       | Some o => (Ok (bool_decide (is_Some (obj_attrs o !! k))), w)
                       | None => (Ok false, w)
                       end
           | _ => (Ok false, w)
           end.

(** [v.k]. *)
Definition getattr (v : pyval) (k : string) : M pyval :=
  match v with
  | VRef l => fun w =>
      match w_heap w !! l with
      | Some o => match obj_attrs o !! k with
                  | Some x => (Ok x, w)
                  | None => raise_new (new_exception "AttributeError" k) w
                  end
      | None => raise_new (new_exception "AttributeError" k) w
      end
  | _ => raise_new (new_exception "AttributeError" k)
  end.

(** [v.k = x]. *)
Definition setattr (v : pyval) (k : string) (x : pyval) : M unit :=
  match v with
  | VRef l => fun w =>
      match w_heap w !! l with
      | Some o => (Ok tt, World (<[l := set_attr k x o]> (w_heap w)) (w_req w) (w_log w))
      | None => raise_new (new_exception "AttributeError" k) w
      end
  | _ => raise_new (new_exception "AttributeError" k)
  end.

(** [v[k]] for a string key. *)
Definition getitem (v : pyval) (k : string) : M pyval :=
  match v with
  | VDict d => match dict_get k d with
               | Some x => ret x
               | None => raise_new (new_exception "KeyError" k)
               end
  | _ => raise_new (new_exception "TypeError" "not subscriptable by a string")
  end.

(** [v.update(other)], returning the updated dictionary. *)
Definition update (v : pyval) (other : list (string * pyval)) : M pyval :=
  match v with
  | VDict d => ret (VDict (dict_update d other))
  | _ => raise_new (new_exception "AttributeError" "update")
  end.

(** ** Collaborators *)

(** A Marshmallow schema class.  [load sch many h json] stands for
    [sch(many=many).load(json)] and [dump sch many h v] for
    [sch(many=many).dump(v)]; both may read the heap, and return the pair
    (result, errors) or raise. *)
Record Schema : Type := MkSchema {
  load : bool -> heap -> pyval -> outcome (pyval * pyval);
  dump : bool -> heap -> pyval -> outcome (pyval * pyval)
}.

(** The [reqparse] module over its parser type: the constructor
    [RequestParser(bundle_errors=b)], [add_argument] called with keyword arguments and
    [parse_args()], which reads the current request. *)
Record Reqparse (parser : Type) : Type := MkReqparse {
  RequestParser : bool -> parser;
  add_argument : parser -> list (string * pyval) -> outcome parser;
  parse_args : parser -> request -> outcome pyval
}.
Arguments RequestParser {parser} _ _.
Arguments add_argument {parser} _ _ _.
Arguments parse_args {parser} _ _ _.

(** The documentation handle, of which the decorator uses the parser
    factory [api.parser()]. *)
Record Api (parser : Type) : Type := MkApi {
  api_parser : parser
}.
Arguments api_parser {parser} _.

(** The names imported from Flask and Werkzeug: [jsonify(v)], which
    builds a new response object, [json.dumps(v)], and the constructor
    [Response(body, status=..., mimetype=...)].  The first two may read the
    objects [v] refers to; all three return or raise. *)
Record FlaskLib : Type := MkFlaskLib {
  jsonify : heap -> pyval -> outcome pyobj;
  json_dumps : heap -> pyval -> outcome pyval;
  new_Response : pyval -> pyval -> pyval -> outcome pyobj
}.

(** A handler: its declared parameter names, as [inspect.signature]
    reports them, and what a call does to the heap and to the request. *)
Record callable : Type := Callable {
  params : list string;
  call : list pyval -> list (string * pyval) -> heap -> request ->
         result pyval * heap * request
}.

(** ** decorators.py *)

(** [_is_method(func)]: ["self" in sig.parameters]. *)
Definition _is_method (func : callable) : bool :=
  bool_decide ("self" ∈ params func).

(** The keyword arguments of the call [_parser.add_argument]: those of
    the dictionary [qp], unpacked, and [location="values"]. *)
Definition add_argument_kwargs (qp : pyval) : outcome (list (string * pyval)) :=
  match qp with
  | VDict d =>
      match dict_get "location" d with
      | Some _ =>
          Raises (new_exception "TypeError"
                    "got multiple values for keyword argument 'location'")
      | None => Returns (d ++ [("location", VStr "values")])
      end
  | _ => Raises (new_exception "TypeError" "argument after ** must be a mapping")
  end.

(** [query_params = [arg for arg in args if isinstance(arg, dict)]]. *)
Definition query_params (args : list pyval) : list pyval :=
  List.filter is_dict args.

(** The loop [for qp in query_params: _parser.add_argument(...)]. *)
Fixpoint add_arguments {parser} (lib : Reqparse parser) (_parser : parser)
    (qps : list pyval) : outcome parser :=
  match qps with
  | [] => Returns _parser
  | qp :: rest =>
      match add_argument_kwargs qp with
      | Raises e => Raises e
      | Returns kw =>
          match add_argument lib _parser kw with
          | Raises e => Raises e
          | Returns p => add_arguments lib p rest
          end
      end
  end.

(** Lines 35-42 of [accepts]: the parser built at decoration time. *)
Definition accepts_parser {parser} (lib : Reqparse parser)
    (api : option (Api parser)) (args : list pyval) : outcome parser :=
  let _parser := match api with
                 | Some a => api_parser a
                 | None => RequestParser lib true
                 end in
  add_arguments lib _parser (query_params args).

Definition set_parsed_args (v : pyval) : M unit :=
  fun w => (Ok tt, World (w_heap w)
                     (Request (req_json (w_req w)) (Some v) (parsed_obj (w_req w)))
                     (w_log w)).

Definition set_parsed_obj (v : pyval) : M unit :=
  fun w => (Ok tt, World (w_heap w)
                     (Request (req_json (w_req w)) (parsed_args (w_req w)) (Some v))
                     (w_log w)).

(** [request.get_json()]. *)
Definition get_json : M pyval := fun w => lift (req_json (w_req w)) w.

(** [_parser.parse_args()]. *)
Definition call_parse_args {parser} (lib : Reqparse parser) (_parser : parser)
  : M pyval :=
  emit EvParseArgs ;;;
  fun w => lift (parse_args lib _parser (w_req w)) w.

(** [schema(many=many).load(json)]. *)
Definition call_load (sch : Schema) (many : bool) (json : pyval)
  : M (pyval * pyval) :=
  emit (EvLoad many json) ;;;
  fun w => lift (load sch many (w_heap w) json) w.

(** [schema(many=many).dump(v)]. *)
Definition call_dump (sch : Schema) (many : bool) (v : pyval)
  : M (pyval * pyval) :=
  emit (EvDump many v) ;;;
  fun w => lift (dump sch many (w_heap w) v) w.

(** The call of [func] with the positional and keyword arguments. *)
Definition call_func (func : callable) (args : list pyval)
    (kwargs : list (string * pyval)) : M pyval :=
  fun w => let '(r, h, q) := call func args kwargs (w_heap w) (w_req w) in
           (r, World h q (w_log w ++ [EvHandler args kwargs])).

(** [raise (error)]. *)
Definition raise_val {A} (error : pyval) : M A :=
  match error with
  | VRef l => raise l
  | _ => raise_new (new_exception "TypeError"
                      "exceptions must derive from BaseException")
  end.

(** [d[k] = v] on a dictionary value. *)
Definition store_item (d : pyval) (k : string) (v : pyval) : pyval :=
  match d with
  | VDict l => VDict (dict_set k v l)
  | _ => d
  end.

(** Lines 65-69: the schema errors [err] are put on the error object.
    [error.data["message"].update(...)] mutates the dictionary held by the
    [data] attribute, which is written back to the attribute. *)
Definition merge_schema_errors (error err : pyval) : M pyval :=
  error <- (if truthy error then ret error
            else new (new_exception "ValueError" "Invalid parsing error.")) ;;
  has <- hasattr error "data" ;;
  (if has : bool then
     data <- getattr error "data" ;;
     message <- getitem data "message" ;;
     message' <- update message [("schema_errors", err)] ;;
     setattr error "data" (store_item data "message" message')
   else
     setattr error "data" (VDict [("schema_errors", err)])) ;;;
  ret error.

(** Lines 51-76: [inner] of [accepts]. *)
Definition accepts_inner {parser} (lib : Reqparse parser) (_parser : parser)
    (schema : option Schema) (many : bool) (func : callable)
    (args : list pyval) (kwargs : list (string * pyval)) : M pyval :=
  error <- try_except
             (v <- call_parse_args lib _parser ;;
              set_parsed_args v ;;;
              ret VNone)
             (fun e => ret (VRef e)) ;;
  error <- match schema with
           | Some sch =>
               json <- get_json ;;
               r <- call_load sch many json ;;
               let '(obj, err) := r in
               error <- (if truthy err then merge_schema_errors error err
                         else ret error) ;;
               set_parsed_obj obj ;;;
               ret error
           | None => ret error
           end ;;
  if truthy error then raise_val error
  else call_func func args kwargs.

(** [accepts] applied to its arguments and then to [func]: the parser is
    built once, and the decorated function closes over it. *)
Definition accepts {parser} (lib : Reqparse parser) (args : list pyval)
    (schema : option Schema) (many : bool) (api : option (Api parser))
    (func : callable)
  : outcome (list pyval -> list (string * pyval) -> M pyval) :=
  match accepts_parser lib api args with
  | Raises e => Raises e
  | Returns _parser => Returns (accepts_inner lib _parser schema many func)
  end.

(** The class [werkzeug.wrappers.Response] and its Flask subclass. *)
Definition Response : string := "werkzeug.wrappers.Response".

Definition flask_response (body status : pyval) : pyobj :=
  PyObj ["flask.wrappers.Response"; Response; "object"]
        {[ "json" := body; "status" := status;
           "mimetype" := VStr "application/json" ]}.

(** [jsonify(v)]: the response it builds is a new object. *)
Definition call_jsonify (fl : FlaskLib) (v : pyval) : M pyval :=
  emit (EvJsonify v) ;;;
  o <- (fun w => lift (jsonify fl (w_heap w) v) w) ;;
  new o.

(** [schema(many=many)] when [schema] may be [None]. *)
Definition instantiate (schema : option Schema) : M Schema :=
  match schema with
  | Some sch => ret sch
  | None => raise_new (new_exception "TypeError"
                         "'NoneType' object is not callable")
  end.

(** Lines 118-132: [inner] of [responds]. *)
Definition responds_inner (fl : FlaskLib) (schema : option Schema)
    (many : bool) (wrapper : option string) (func : callable)
    (args : list pyval) (kwargs : list (string * pyval)) : M pyval :=
  rv <- call_func func args kwargs ;;
  fun w =>
    if isinstance (w_heap w) rv Response then ret rv w
    else if match wrapper with
            | Some W => isinstance (w_heap w) rv W
            | None => false
            end
    then (sch <- instantiate schema ;;
          value <- getattr rv "value" ;;
          r <- call_dump sch many value ;;
          setattr rv "value" (fst r) ;;;
          ret rv) w
    else (sch <- instantiate schema ;;
          r <- call_dump sch many rv ;;
          let serialized := fst r in
          if negb (_is_method func) then call_jsonify fl serialized
          else ret serialized) w.

(** [responds(schema=..., many=..., wrapper=...)(func)]. *)
Definition responds (fl : FlaskLib) (schema : option Schema) (many : bool)
    (wrapper : option string) (func : callable)
  : list pyval -> list (string * pyval) -> M pyval :=
  responds_inner fl schema many wrapper func.

(** ** test/wrapper.py *)

Definition Wrapper : string := "Wrapper".

(** [Wrapper(value, status)]. *)
Definition Wrapper_init (value status : pyval) : pyobj :=
  PyObj [Wrapper; "object"] {[ "value" := value; "status" := status ]}.

(** [Wrapper.to_response(self)]: the body is computed before the status
    is read, and the response is built last. *)
Definition to_response (fl : FlaskLib) (self : pyval) : M pyval :=
  value <- getattr self "value" ;;
  body <- (fun w => lift (json_dumps fl (w_heap w) value) w) ;;
  status <- getattr self "status" ;;
  o <- lift (new_Response fl body status (VStr "application/json")) ;;
  new o.

(** ** Notions used in the statements *)

(** The attribute [k] of the object at [l], if any. *)
Definition attr_of (h : heap) (l : loc) (k : string) : option pyval :=
  match h !! l with
  | Some o => obj_attrs o !! k
  | None => None
  end.

(** The class of the object at [l]. *)
Definition class_of (h : heap) (l : loc) : option string :=
  match h !! l with
  | Some o => head (obj_mro o)
  | None => None
  end.

(** Where the request decorator leaves the schema errors in the structured
    data of an error: at the top of the data, or inside its ["message"]
    dictionary next to the argument errors. *)
Definition schema_errors_in (data : pyval) : option pyval :=
  match data with
  | VDict d =>
      match dict_get "schema_errors" d with
      | Some e => Some e
      | None =>
          match dict_get "message" d with
          | Some (VDict m) => dict_get "schema_errors" m
          | _ => None
          end
      end
  | _ => None
  end.

(** The world in which [inner] of [accepts] calls the handler when nothing
    failed: both attributes are on the request. *)
Definition attached (w : world) (pa : pyval) (po : option pyval)
    (evs : list event) : world :=
  World (w_heap w) (Request (req_json (w_req w)) (Some pa) po)
        (w_log w ++ evs).

(** The value that [inner] of [responds] hands to [dump]: the carrier's
    [value] slot in the carrier branch, the returned value otherwise. *)
Definition is_carrier (wrapper : option string) (h : heap) (rv : pyval) : bool :=
  match wrapper with
  | Some W => isinstance h rv W
  | None => false
  end.

Definition dumped_value (wrapper : option string) (h : heap) (rv : pyval)
  : option pyval :=
  if is_carrier wrapper h rv then
    match rv with
    | VRef l => attr_of h l "value"
    | _ => None
    end
  else Some rv.

(** ** Test doubles

    Concrete collaborators on which the statements are evaluated. *)

(** A parser that records the keyword arguments of every [add_argument]
    call and whose [parse_args] has the fixed outcome [r]. *)
Definition recording_parser (r : outcome pyval)
  : Reqparse (list (list (string * pyval))) :=
  MkReqparse _ (fun _ => [])
             (fun p kw => Returns (p ++ [kw]))
             (fun _ _ => r).

(** A schema whose [load] and [dump] have fixed outcomes. *)
Definition fixed_schema (l d : outcome (pyval * pyval)) : Schema :=
  MkSchema (fun _ _ _ => l) (fun _ _ _ => d).

(** A handler that returns [v] and touches nothing. *)
Definition returning (ps : list string) (v : pyval) : callable :=
  Callable ps (fun _ _ h q => (Ok v, h, q)).

(** A handler that allocates [o] and returns a reference to it. *)
Definition building (ps : list string) (o : pyobj) : callable :=
  Callable ps (fun _ _ h q => (Ok (VRef (List.length h)), h ++ [o], q)).

Definition empty_world (json : pyval) : world :=
  World [] (Request (Returns json) None None) [].

(** The error of [flask_restful] with [bundle_errors=True]: the data maps
    ["message"] to the dictionary of argument errors. *)
Definition bundled_error : pyobj :=
  PyObj (exc_mro "BadRequest")
        {[ "data" := VDict [("message",
                             VDict [("foo", VStr "A required foo")])] ]}.

(** The error of a parser obtained from [api.parser()] of
    [flask_restplus]: the data maps ["message"] to a text and ["errors"]
    to the dictionary of argument errors. *)
Definition restplus_error : pyobj :=
  PyObj (exc_mro "BadRequest")
        {[ "data" := VDict [("errors", VDict [("foo", VStr "A required foo")]);
                            ("message", VStr "Input payload validation failed")] ]}.

Definition name_errors : pyval :=
  VDict [("name", VList [VStr "Missing data for required field."])].

Definition two_records : pyval :=
  VList [VDict [("id", VInt 1); ("name", VStr "one")];
         VDict [("id", VInt 2); ("name", VStr "two")]].

Definition two_dumped : pyval :=
  VList [VDict [("name", VStr "one"); ("id", VInt 1)];
         VDict [("name", VStr "two"); ("id", VInt 2)]].

(** A carrier class that derives from the framework response. *)
Definition response_carrier (value status : pyval) : pyobj :=
  PyObj ["Envelope"; Response; "object"]
        {[ "value" := value; "status" := status ]}.

(** ** test/fixtures.py *)

(** [rv.to_response()]: for a direct instance of [Wrapper] that has no
    attribute of that name of its own, the method of [Wrapper]; a subclass
    or the instance may supply another one, [overriding]. *)
Definition call_to_response (fl : FlaskLib) (overriding : pyval -> M pyval)
    (rv : pyval) : M pyval :=
  fun w =>
    match rv with
    | VRef l =>
        match w_heap w !! l with
        | Some o =>
            if bool_decide (head (obj_mro o) = Some Wrapper) &&
               bool_decide (obj_attrs o !! "to_response" = None)
            then to_response fl rv w
            else overriding rv w
        | None => overriding rv w
        end
    | _ => overriding rv w
    end.

(** [ApiFlask.make_response(self, rv)]: a carrier is turned into a response
    by its [to_response]; any other value goes to [Flask.make_response], a
    collaborator of the framework. *)
Definition make_response (fl : FlaskLib)
    (flask_make_response overriding : pyval -> M pyval) (rv : pyval) : M pyval :=
  fun w => if isinstance (w_heap w) rv Wrapper
           then call_to_response fl overriding rv w
           else flask_make_response rv w.

(** ** Further notions used in the statements *)

(** The heap and the request as [inner] of [accepts] finds them after the
    [try] block, according to what [parse_args] did. *)
Definition heap_after_parse (r : outcome pyval) (h : heap) : heap :=
  match r with
  | Returns _ => h
  | Raises o => h ++ [o]
  end.

Definition req_after_parse (r : outcome pyval) (q : request) : request :=
  match r with
  | Returns pa => Request (req_json q) (Some pa) (parsed_obj q)
  | Raises _ => q
  end.


(** The values that the JSON encoder accepts: no object reference. *)
Fixpoint json_serializable (v : pyval) : bool :=
  match v with
  | VRef _ => false
  | VList l => forallb json_serializable l
  | VDict d => forallb (fun kv => match kv with
                                  | (_, x) => json_serializable x
                                  end) d
  | _ => true
  end.

Definition not_serializable : pyobj :=
  new_exception "TypeError" "Object is not JSON serializable".

(** A Flask double: a body is kept as the value it encodes, a value that
    holds an object is refused, and a response records what its
    constructor was given. *)
Definition echo_flask : FlaskLib :=
  MkFlaskLib (fun _ v => if json_serializable v
                         then Returns (flask_response v (VInt 200))
                         else Raises not_serializable)
             (fun _ v => if json_serializable v then Returns v
                         else Raises not_serializable)
             (fun body status mimetype =>
                Returns (PyObj ["flask.wrappers.Response"; Response; "object"]
                           {[ "data" := body; "status" := status;
                              "mimetype" := mimetype ]})).

(** The parser errors on which lines 66-69 can put schema errors: those
    without a [data] attribute, and those whose data is a dictionary that
    maps ["message"] to a dictionary. *)
Definition mergeable (o : pyobj) : bool :=
  match obj_attrs o !! "data" with
  | None => true
  | Some (VDict d) =>
      match dict_get "message" d with
      | Some (VDict _) => true
      | _ => false
      end
  | Some _ => false
  end.

(** Such an error once it carries the schema errors [err]: they are its
    data when it had none, and an entry of its message dictionary
    otherwise. *)
Definition with_schema_errors (err : pyval) (o : pyobj) : pyobj :=
  match obj_attrs o !! "data" with
  | None => set_attr "data" (VDict [("schema_errors", err)]) o
  | Some (VDict d) =>
      match dict_get "message" d with
      | Some (VDict m) =>
          set_attr "data"
            (VDict (dict_set "message"
                      (VDict (dict_set "schema_errors" err m)) d)) o
      | _ => o
      end
  | Some _ => o
  end.

(** The exception of [get_json] on a body that is not JSON. *)
Definition malformed_body : pyobj :=
  new_exception "BadRequest" "Failed to decode JSON object".

(** A parser exception whose data has no ["message"] entry. *)
Definition messageless_error : pyobj :=
  PyObj (exc_mro "BadRequest")
        {[ "data" := VDict [("errors", VDict [("foo", VStr "A required foo")])] ]}.

(** * Properties *)

(** One step of symbolic execution of a body written in the monad. *)
Ltac run :=
  repeat progress
    (unfold bind, ret, raise, new, raise_new, emit, lift, try_except,
       instantiate, get_json, set_parsed_args, set_parsed_obj, raise_val,
       call_parse_args, call_load, call_dump, call_func, call_jsonify, alloc;
     simpl;
     try match goal with
         | H : req_json _ = _ |- _ => rewrite H
         end).

(** ** The heap *)

Lemma alloc_lookup (o : pyobj) (h : heap) :
  (h ++ [o]) !! List.length h = Some o.
Proof. by rewrite list_lookup_middle. Qed.

Lemma alloc_lookup_old (o : pyobj) (h : heap) (l : loc) :
  l < List.length h -> (h ++ [o]) !! l = h !! l.
Proof. intros Hl. by rewrite lookup_app_l. Qed.

Lemma isinstance_spec (h : heap) (v : pyval) (cls : string) :
  isinstance h v cls = true <-> cls ∈ mro_of h v.
Proof.
  unfold isinstance. rewrite existsb_exists. split.
  - intros (c & Hin & Heq). apply String.eqb_eq in Heq. subst c.
    by apply list_elem_of_In.
  - intros Hin. exists cls. split; [by apply list_elem_of_In|].
    apply String.eqb_refl.
Qed.

(** ** The method detector *)

(** The detector looks for the name anywhere in the parameter list. *)
Lemma is_method_spec (func : callable) :
  _is_method func = true <-> exists i, params func !! i = Some "self".
Proof.
  unfold _is_method. rewrite bool_decide_eq_true.
  apply list_elem_of_lookup.
Qed.

(** C3, as stated, fails: a callable whose second parameter is called
    [self] is reported as a method although its first parameter is not. *)
Lemma is_method_first_parameter_counterexample :
  ~ (forall func : callable,
        _is_method func = true <-> head (params func) = Some "self").
Proof.
  intros H.
  destruct (H (returning ["request"; "self"] VNone)) as [H1 _].
  specialize (H1 eq_refl). discriminate H1.
Qed.

(** C3, amended: the method detector returns true if and only if some
    parameter of the declared parameter list, at any position, is named
    [self]; so it returns true when the first parameter is [self], and
    false exactly when no parameter has that name. *)
Theorem is_method_iff_some_parameter_is_self (func : callable) :
  (_is_method func = true <-> exists i, params func !! i = Some "self") /\
  (_is_method func = false <-> forall i, params func !! i <> Some "self") /\
  (head (params func) = Some "self" -> _is_method func = true).
Proof.
  split; [apply is_method_spec|]. split.
  - rewrite <- not_true_iff_false, is_method_spec. split.
    + intros Hn i Hi. apply Hn. by exists i.
    + intros Hall (i & Hi). by apply (Hall i).
  - intros Hhd. apply is_method_spec. exists 0.
    by destruct (params func).
Qed.

Lemma is_method_iff_some_parameter_is_self_witness :
  head (params (returning ["self"; "id"] VNone)) = Some "self" /\
  _is_method (returning ["self"; "id"] VNone) = true.
Proof.
  split; [reflexivity|].
  apply (is_method_iff_some_parameter_is_self (returning ["self"; "id"] VNone)).
  reflexivity.
Defined.

(** ** Decoration time: the parser specification *)

Lemma query_params_app (l1 l2 : list pyval) :
  query_params (l1 ++ l2) = query_params l1 ++ query_params l2.
Proof. apply List.filter_app. Qed.

Lemma query_params_all_dicts (args : list pyval) :
  Forall (fun a => is_dict a = true) (query_params args).
Proof.
  apply Forall_forall. intros a Ha.
  apply list_elem_of_In, List.filter_In in Ha. tauto.
Qed.


(** C10: at decoration time only the positional arguments that are
    dictionaries reach the parser; a positional argument of any other type,
    wherever it stands, changes neither the parser that is built nor
    whether building it raises, and when no argument is a dictionary the
    parser is left as it was created. *)
Theorem accepts_ignores_non_dict_arguments {parser} (lib : Reqparse parser)
    (api : option (Api parser)) (l1 l2 : list pyval) (a : pyval) :
  is_dict a = false ->
  accepts_parser lib api (l1 ++ a :: l2) = accepts_parser lib api (l1 ++ l2) /\
  accepts_parser lib api [a]
  = Returns (match api with
             | Some h => api_parser h
             | None => RequestParser lib true
             end).
Proof.
  intros Ha. unfold accepts_parser. split.
  - rewrite !query_params_app. simpl. by rewrite Ha.
  - simpl. by rewrite Ha.
Qed.

Lemma accepts_ignores_non_dict_arguments_witness :
  is_dict (VStr "foo") = false /\
  accepts_parser (recording_parser (Returns VNone)) None
    [VDict [("name", VStr "foo")]; VStr "foo"; VDict [("name", VStr "bar")]]
  = Returns [[("name", VStr "foo"); ("location", VStr "values")];
             [("name", VStr "bar"); ("location", VStr "values")]].
Proof.
  split; [reflexivity|].
  destruct (accepts_ignores_non_dict_arguments
              (recording_parser (Returns VNone)) None
              [VDict [("name", VStr "foo")]] [VDict [("name", VStr "bar")]]
              (VStr "foo") eq_refl) as [H _].
  simpl app in H. rewrite H. reflexivity.
Defined.

(** ** The response decorator *)

Section Responds.
Context (fl : FlaskLib) (schema : option Schema) (many : bool).
Context (wrapper : option string).
Context (func : callable) (args : list pyval) (kwargs : list (string * pyval)).
Context (w : world) (rv : pyval) (h1 : heap) (q1 : request).
Hypothesis Hcall :
  call func args kwargs (w_heap w) (w_req w) = (Ok rv, h1, q1).

(** What [inner] does once the handler has returned [rv]. *)
Lemma responds_after_call :
  responds fl schema many wrapper func args kwargs w
  = let w1 := World h1 q1 (w_log w ++ [EvHandler args kwargs]) in
    if isinstance h1 rv Response then (Ok rv, w1)
    else if is_carrier wrapper h1 rv then
      (sch <- instantiate schema ;;
       value <- getattr rv "value" ;;
       r <- call_dump sch many value ;;
       setattr rv "value" (fst r) ;;;
       ret rv) w1
    else
      (sch <- instantiate schema ;;
       r <- call_dump sch many rv ;;
       if negb (_is_method func) then call_jsonify fl (fst r)
       else ret (fst r)) w1.
Proof.
  unfold responds, responds_inner, bind at 1, call_func.
  rewrite Hcall. simpl. unfold is_carrier. reflexivity.
Qed.
End Responds.

(** C6: a return value that is already a framework response is returned
    as it is: the heap (hence the body and the status of the response) and
    the request are those the handler left, no [dump] and no [jsonify] is
    called, and this holds whatever schema and carrier type are configured,
    also when the value is an instance of the carrier type. *)
Theorem responds_passes_response_through (fl : FlaskLib)
    (schema : option Schema)
    (many : bool) (wrapper : option string) (func : callable)
    (args : list pyval) (kwargs : list (string * pyval))
    (w : world) (rv : pyval) (h1 : heap) (q1 : request) :
  call func args kwargs (w_heap w) (w_req w) = (Ok rv, h1, q1) ->
  isinstance h1 rv Response = true ->
  responds fl schema many wrapper func args kwargs w
  = (Ok rv, World h1 q1 (w_log w ++ [EvHandler args kwargs])).
Proof.
  intros Hcall Hresp. rewrite (responds_after_call _ _ _ _ _ _ _ _ _ _ _ Hcall).
  simpl. by rewrite Hresp.
Qed.

Lemma responds_passes_response_through_witness :
  let func := building [] (response_carrier two_records (VInt 201)) in
  let sch := fixed_schema (Returns (VNone, VNone)) (Returns (two_dumped, VDict [])) in
  let w := empty_world VNone in
  call func [] [] (w_heap w) (w_req w)
  = (Ok (VRef 0), [response_carrier two_records (VInt 201)], w_req w) /\
  isinstance [response_carrier two_records (VInt 201)] (VRef 0) Response = true /\
  responds echo_flask (Some sch) true (Some "Envelope") func [] [] w
  = (Ok (VRef 0),
     World [response_carrier two_records (VInt 201)] (w_req w) [EvHandler [] []]).
Proof.
  intros func sch w. split; [reflexivity|]. split; [reflexivity|].
  apply (responds_passes_response_through echo_flask (Some sch) true
           (Some "Envelope") func [] [] w (VRef 0)); reflexivity.
Defined.

(** C4, as stated, fails when "bound method" is what the spec says the
    method detector looks for, a first parameter named [self]: a handler
    declared with the parameters [request, self] is a plain function by
    that test, yet it gets the unwrapped payload, not a JSON response. *)
Lemma responds_first_parameter_counterexample :
  ~ (forall (fl : FlaskLib) (sch : Schema) (many : bool)
            (wrapper : option string) (func : callable)
            (args : list pyval) (kwargs : list (string * pyval))
            (w : world) (rv : pyval) (h1 : heap) (q1 : request)
            (serialized errors : pyval) (resp : pyobj),
        call func args kwargs (w_heap w) (w_req w) = (Ok rv, h1, q1) ->
        isinstance h1 rv Response = false ->
        is_carrier wrapper h1 rv = false ->
        dump sch many h1 rv = Returns (serialized, errors) ->
        jsonify fl h1 serialized = Returns resp ->
        responds fl (Some sch) many wrapper func args kwargs w
        = if bool_decide (head (params func) = Some "self") then
            (Ok serialized,
             World h1 q1 (w_log w ++ [EvHandler args kwargs; EvDump many rv]))
          else
            (Ok (VRef (List.length h1)),
             World (h1 ++ [resp]) q1
                   (w_log w ++ [EvHandler args kwargs; EvDump many rv;
                                EvJsonify serialized]))).
Proof.
  intros H.
  specialize (H echo_flask
                (fixed_schema (Returns (VNone, VNone))
                              (Returns (two_dumped, VDict [])))
                true None (returning ["request"; "self"] two_records)
                [] [] (empty_world VNone) two_records []
                (Request (Returns VNone) None None) two_dumped (VDict [])
                (flask_response two_dumped (VInt 200))
                eq_refl eq_refl eq_refl eq_refl eq_refl).
  vm_compute in H. discriminate H.
Qed.

(** C4, amended: a return value that is neither a framework response nor
    a carrier instance is dumped through the schema with the configured
    [many].  When some parameter of the handler, at any position, is named
    [self], the payload itself is returned and nothing is allocated; when
    no parameter has that name, the payload goes to [jsonify] and the new
    response it builds is returned. *)
Theorem responds_serializes_plain_value (fl : FlaskLib) (sch : Schema)
    (many : bool) (wrapper : option string) (func : callable)
    (args : list pyval) (kwargs : list (string * pyval))
    (w : world) (rv : pyval) (h1 : heap) (q1 : request)
    (serialized errors : pyval) :
  call func args kwargs (w_heap w) (w_req w) = (Ok rv, h1, q1) ->
  isinstance h1 rv Response = false ->
  is_carrier wrapper h1 rv = false ->
  dump sch many h1 rv = Returns (serialized, errors) ->
  ("self" ∈ params func ->
   responds fl (Some sch) many wrapper func args kwargs w
   = (Ok serialized,
      World h1 q1 (w_log w ++ [EvHandler args kwargs; EvDump many rv]))) /\
  ("self" ∉ params func ->
   forall resp : pyobj,
     jsonify fl h1 serialized = Returns resp ->
     responds fl (Some sch) many wrapper func args kwargs w
     = (Ok (VRef (List.length h1)),
        World (h1 ++ [resp]) q1
              (w_log w ++ [EvHandler args kwargs; EvDump many rv;
                           EvJsonify serialized]))).
Proof.
  intros Hcall Hresp Hcar Hdump.
  rewrite (responds_after_call _ _ _ _ _ _ _ _ _ _ _ Hcall).
  simpl. rewrite Hresp, Hcar.
  run. rewrite Hdump. run. unfold _is_method. split.
  - intros Hself. rewrite bool_decide_eq_true_2 by done. run.
    by rewrite <- app_assoc.
  - intros Hself resp Hjson. rewrite bool_decide_eq_false_2 by done. run.
    rewrite Hjson. run. by rewrite <- !app_assoc.
Qed.

Lemma responds_serializes_plain_value_witness :
  let method := returning ["self"; "id"] two_records in
  let route := returning ["id"] two_records in
  let sch := fixed_schema (Returns (VNone, VNone)) (Returns (two_dumped, VDict [])) in
  let w := empty_world VNone in
  call method [] [] (w_heap w) (w_req w) = (Ok two_records, [], w_req w) /\
  call route [] [] (w_heap w) (w_req w) = (Ok two_records, [], w_req w) /\
  isinstance [] two_records Response = false /\
  is_carrier (Some Wrapper) [] two_records = false /\
  dump sch true [] two_records = Returns (two_dumped, VDict []) /\
  ("self" ∈ params method) /\
  ("self" ∉ params route) /\
  jsonify echo_flask [] two_dumped = Returns (flask_response two_dumped (VInt 200)) /\
  responds echo_flask (Some sch) true (Some Wrapper) method [] [] w
  = (Ok two_dumped,
     World [] (w_req w) ([] ++ [EvHandler [] []; EvDump true two_records])) /\
  responds echo_flask (Some sch) true (Some Wrapper) route [] [] w
  = (Ok (VRef 0),
     World ([] ++ [flask_response two_dumped (VInt 200)]) (w_req w)
           ([] ++ [EvHandler [] []; EvDump true two_records;
                   EvJsonify two_dumped])).
Proof.
  intros method route sch w.
  assert (Hm : "self" ∈ params method)
    by (apply (bool_decide_unpack ("self" ∈ params method)); vm_compute; exact I).
  assert (Hr : "self" ∉ params route)
    by (apply (bool_decide_unpack ("self" ∉ params route)); vm_compute; exact I).
  do 8 (split; [first [reflexivity | assumption]|]).
  split.
  - apply (responds_serializes_plain_value echo_flask sch true (Some Wrapper)
             method [] [] w two_records [] (w_req w) two_dumped (VDict [])
             eq_refl eq_refl eq_refl eq_refl). exact Hm.
  - apply (responds_serializes_plain_value echo_flask sch true (Some Wrapper)
             route [] [] w two_records [] (w_req w) two_dumped (VDict [])
             eq_refl eq_refl eq_refl eq_refl); [exact Hr | reflexivity].
Defined.

(** C5, as stated, fails: when the carrier class derives from the
    framework response, a carrier instance takes the pass-through branch
    and its value slot keeps the records instead of their dumped form. *)
Lemma responds_carrier_counterexample :
  ~ (forall (fl : FlaskLib) (sch : Schema) (many : bool) (W : string)
            (func : callable)
            (w : world) (l : loc) (h1 : heap) (q1 : request)
            (value serialized errors : pyval),
        call func [] [] (w_heap w) (w_req w) = (Ok (VRef l), h1, q1) ->
        isinstance h1 (VRef l) W = true ->
        attr_of h1 l "value" = Some value ->
        dump sch many h1 value = Returns (serialized, errors) ->
        exists w',
          responds fl (Some sch) many (Some W) func [] [] w = (Ok (VRef l), w') /\
          attr_of (w_heap w') l "value" = Some serialized).
Proof.
  intros H.
  destruct (H echo_flask
              (fixed_schema (Returns (VNone, VNone))
                            (Returns (two_dumped, VDict [])))
              true "Envelope"
              (building [] (response_carrier two_records (VInt 201)))
              (empty_world VNone) 0
              [response_carrier two_records (VInt 201)]
              (Request (Returns VNone) None None)
              two_records two_dumped (VDict [])
              eq_refl eq_refl eq_refl eq_refl) as (w' & Hrun & Hval).
  vm_compute in Hrun. injection Hrun as <-.
  vm_compute in Hval. discriminate Hval.
Qed.

(** C5, amended: when a carrier type is configured and the handler's
    return value is an instance of it and is not a framework response
    object, only the carrier's value slot is replaced by the
    schema-serialized form of its previous contents (respecting [many]),
    and the same carrier object is returned with every other attribute (in
    particular its status code), its class, every other object of the heap
    and the request unchanged. *)
Theorem responds_mutates_only_value_slot (fl : FlaskLib) (sch : Schema)
    (many : bool) (W : string) (func : callable)
    (args : list pyval) (kwargs : list (string * pyval))
    (w : world) (l : loc) (o : pyobj) (h1 : heap) (q1 : request)
    (value serialized errors : pyval) :
  call func args kwargs (w_heap w) (w_req w) = (Ok (VRef l), h1, q1) ->
  h1 !! l = Some o ->
  isinstance h1 (VRef l) Response = false ->
  isinstance h1 (VRef l) W = true ->
  obj_attrs o !! "value" = Some value ->
  dump sch many h1 value = Returns (serialized, errors) ->
  exists w',
    responds fl (Some sch) many (Some W) func args kwargs w = (Ok (VRef l), w') /\
    w_heap w' = <[l := set_attr "value" serialized o]> h1 /\
    attr_of (w_heap w') l "value" = Some serialized /\
    (forall k, k <> "value" -> attr_of (w_heap w') l k = obj_attrs o !! k) /\
    mro_of (w_heap w') (VRef l) = obj_mro o /\
    (forall l', l' <> l -> w_heap w' !! l' = h1 !! l') /\
    w_req w' = q1 /\
    w_log w' = w_log w ++ [EvHandler args kwargs; EvDump many value].
Proof.
  intros Hcall Hl Hresp Hcar Hval Hdump.
  rewrite (responds_after_call _ _ _ _ _ _ _ _ _ _ _ Hcall).
  simpl. rewrite Hresp, Hcar.
  unfold getattr, setattr. run. rewrite Hl, Hval. run. rewrite Hdump. run.
  rewrite Hl. eexists. split; [reflexivity|]. simpl.
  assert (Hlt : l < List.length h1) by (by apply lookup_lt_Some with o).
  unfold attr_of, set_attr.
  repeat split.
  - rewrite list_lookup_insert_eq by done. simpl. apply lookup_insert_eq.
  - intros k Hk. rewrite list_lookup_insert_eq by done. simpl.
    by rewrite lookup_insert_ne.
  - by rewrite list_lookup_insert_eq.
  - intros l' Hl'. by rewrite list_lookup_insert_ne.
  - by rewrite <- app_assoc.
Qed.

Lemma responds_mutates_only_value_slot_witness :
  let func := building [] (Wrapper_init two_records (VInt 201)) in
  let sch := fixed_schema (Returns (VNone, VNone)) (Returns (two_dumped, VDict [])) in
  let w := empty_world VNone in
  let h1 := [Wrapper_init two_records (VInt 201)] in
  call func [] [] (w_heap w) (w_req w) = (Ok (VRef 0), h1, w_req w) /\
  h1 !! 0 = Some (Wrapper_init two_records (VInt 201)) /\
  isinstance h1 (VRef 0) Response = false /\
  isinstance h1 (VRef 0) Wrapper = true /\
  obj_attrs (Wrapper_init two_records (VInt 201)) !! "value" = Some two_records /\
  dump sch true h1 two_records = Returns (two_dumped, VDict []) /\
  exists w',
    responds echo_flask (Some sch) true (Some Wrapper) func [] [] w
    = (Ok (VRef 0), w') /\
    attr_of (w_heap w') 0 "value" = Some two_dumped /\
    attr_of (w_heap w') 0 "status" = Some (VInt 201).
Proof.
  intros func sch w h1. repeat (split; [reflexivity|]).
  destruct (responds_mutates_only_value_slot echo_flask sch true Wrapper func
              [] [] w 0
              (Wrapper_init two_records (VInt 201)) h1 (w_req w)
              two_records two_dumped (VDict [])
              eq_refl eq_refl eq_refl eq_refl eq_refl eq_refl)
    as (w' & Hrun & _ & Hval & Hother & _).
  exists w'. split; [exact Hrun|]. split; [exact Hval|].
  rewrite (Hother "status") by discriminate. reflexivity.
Defined.

(** An exception of the handler leaves [inner] as it is. *)
Lemma responds_propagates_handler_failure (fl : FlaskLib)
    (schema : option Schema)
    (many : bool) (wrapper : option string) (func : callable)
    (args : list pyval) (kwargs : list (string * pyval))
    (w : world) (e : loc) (h1 : heap) (q1 : request) :
  call func args kwargs (w_heap w) (w_req w) = (Raise e, h1, q1) ->
  responds fl schema many wrapper func args kwargs w
  = (Raise e, World h1 q1 (w_log w ++ [EvHandler args kwargs])).
Proof.
  intros Hcall. unfold responds, responds_inner, bind, call_func.
  by rewrite Hcall.
Qed.

(** C8, as stated, fails for the failures that [dump] reports instead of
    raising: the errors component of the pair it returns is never read, so
    with errors reported [inner] returns normally. *)
Lemma responds_reported_errors_counterexample :
  ~ (forall (fl : FlaskLib) (sch : Schema) (many : bool)
            (wrapper : option string) (func : callable)
            (args : list pyval) (kwargs : list (string * pyval))
            (w : world) (rv v : pyval) (h1 : heap) (q1 : request)
            (data errors : pyval),
        call func args kwargs (w_heap w) (w_req w) = (Ok rv, h1, q1) ->
        isinstance h1 rv Response = false ->
        dumped_value wrapper h1 rv = Some v ->
        dump sch many h1 v = Returns (data, errors) ->
        truthy errors = true ->
        exists e w',
          responds fl (Some sch) many wrapper func args kwargs w = (Raise e, w')).
Proof.
  intros H.
  destruct (H echo_flask
              (fixed_schema (Returns (VNone, VNone))
                            (Returns (VList [], name_errors)))
              true None (returning [] two_records)
              [] [] (empty_world VNone) two_records two_records []
              (Request (Returns VNone) None None) (VList []) name_errors
              eq_refl eq_refl eq_refl eq_refl eq_refl) as (e & w' & Hrun).
  vm_compute in Hrun. discriminate Hrun.
Qed.

(** C8, amended: the response decorator handles no error.  Whenever the
    [dump] call it makes (on the carrier's value slot in the carrier
    branch, on the returned value otherwise) raises, [inner] raises that
    very exception object, with no further collaborator call and nothing
    else added to the heap.  Errors that [dump] reports in the pair it
    returns are not raised: only the data component is read, so the
    outcome of [inner] is the one it has for any other errors component,
    the empty one included. *)
Theorem responds_propagates_dump_failure (fl : FlaskLib) (sch : Schema)
    (many : bool) (wrapper : option string) (func : callable)
    (args : list pyval) (kwargs : list (string * pyval))
    (w : world) (rv v : pyval) (h1 : heap) (q1 : request) :
  call func args kwargs (w_heap w) (w_req w) = (Ok rv, h1, q1) ->
  isinstance h1 rv Response = false ->
  dumped_value wrapper h1 rv = Some v ->
  (forall o : pyobj,
     dump sch many h1 v = Raises o ->
     responds fl (Some sch) many wrapper func args kwargs w
     = (Raise (List.length h1),
        World (h1 ++ [o]) q1
              (w_log w ++ [EvHandler args kwargs; EvDump many v]))) /\
  (forall (sch' : Schema) (data errors errors' : pyval),
     dump sch many h1 v = Returns (data, errors) ->
     dump sch' many h1 v = Returns (data, errors') ->
     responds fl (Some sch) many wrapper func args kwargs w
     = responds fl (Some sch') many wrapper func args kwargs w).
Proof.
  intros Hcall Hresp Hv.
  split.
  - intros o Hdump.
    rewrite (responds_after_call _ _ _ _ _ _ _ _ _ _ _ Hcall).
    simpl. rewrite Hresp. unfold dumped_value in Hv.
    destruct (is_carrier wrapper h1 rv).
    + destruct rv as [| | | | | |l]; try discriminate Hv.
      unfold attr_of in Hv. unfold getattr. run.
      destruct (h1 !! l) as [c|]; [|discriminate Hv].
      rewrite Hv. run. rewrite Hdump. run. by rewrite <- app_assoc.
    + injection Hv as ->. run. rewrite Hdump. run. by rewrite <- app_assoc.
  - intros sch' data errors errors' Hdump Hdump'.
    rewrite (responds_after_call fl (Some sch) _ _ _ _ _ _ _ _ _ Hcall).
    rewrite (responds_after_call fl (Some sch') _ _ _ _ _ _ _ _ _ Hcall).
    simpl. rewrite Hresp. unfold dumped_value in Hv.
    destruct (is_carrier wrapper h1 rv).
    + destruct rv as [| | | | | |l]; try discriminate Hv.
      unfold attr_of in Hv. unfold getattr. run.
      destruct (h1 !! l) as [c|]; [|discriminate Hv].
      rewrite Hv. run. by rewrite Hdump, Hdump'.
    + injection Hv as ->. run. by rewrite Hdump, Hdump'.
Qed.

Lemma responds_propagates_dump_failure_witness :
  let func := building [] (Wrapper_init two_records (VInt 201)) in
  let boom := new_exception "ValueError" "cannot serialize" in
  let sch := fixed_schema (Returns (VNone, VNone)) (Raises boom) in
  let w := empty_world VNone in
  let h1 := [Wrapper_init two_records (VInt 201)] in
  call func [] [] (w_heap w) (w_req w) = (Ok (VRef 0), h1, w_req w) /\
  isinstance h1 (VRef 0) Response = false /\
  dumped_value (Some Wrapper) h1 (VRef 0) = Some two_records /\
  dump sch true h1 two_records = Raises boom /\
  responds echo_flask (Some sch) true (Some Wrapper) func [] [] w
  = (Raise 1,
     World (h1 ++ [boom]) (w_req w) ([] ++ [EvHandler [] []; EvDump true two_records])).
Proof.
  intros func boom sch w h1. repeat (split; [reflexivity|]).
  apply (responds_propagates_dump_failure echo_flask sch true (Some Wrapper)
           func [] [] w (VRef 0) two_records h1 (w_req w)
           eq_refl eq_refl eq_refl); reflexivity.
Defined.

(** ** The request decorator *)

(** Putting the schema errors on the error object touches neither the
    request nor the log, and what it returns is an error object: the one it
    was given when there was one. *)
Lemma merge_schema_errors_frame (error err : pyval) (w w' : world)
    (r : result pyval) :
  merge_schema_errors error err w = (r, w') ->
  w_req w' = w_req w /\ w_log w' = w_log w.
Proof.
  unfold merge_schema_errors, hasattr, getattr, getitem, update, setattr.
  run. intros H. repeat case_match; simplify_eq/=; done.
Qed.

Lemma merge_schema_errors_returns (error err e : pyval) (w w' : world) :
  merge_schema_errors error err w = (Ok e, w') ->
  truthy e = true /\ (truthy error = true -> e = error).
Proof.
  unfold merge_schema_errors, hasattr, getattr, getitem, update, setattr.
  run. intros H. repeat case_match; simplify_eq/=; done.
Qed.

Section Accepts.
Context {parser : Type} (lib : Reqparse parser) (_parser : parser).
Context (schema : option Schema) (many : bool) (func : callable).
Context (args : list pyval) (kwargs : list (string * pyval)) (w : world).

(** What [inner] does once [parse_args] has raised [o]: the exception is
    kept in [error] and the body goes on. *)
Lemma accepts_after_parse_failure (o : pyobj) :
  parse_args lib _parser (w_req w) = Raises o ->
  accepts_inner lib _parser schema many func args kwargs w
  = (error <- match schema with
              | Some sch =>
                  json <- get_json ;;
                  r <- call_load sch many json ;;
                  let '(obj, err) := r in
                  error <- (if truthy err
                            then merge_schema_errors (VRef (List.length (w_heap w))) err
                            else ret (VRef (List.length (w_heap w)))) ;;
                  set_parsed_obj obj ;;;
                  ret error
              | None => ret (VRef (List.length (w_heap w)))
              end ;;
     if truthy error then raise_val error
     else call_func func args kwargs)
      (World (w_heap w ++ [o]) (w_req w) (w_log w ++ [EvParseArgs])).
Proof.
  intros Hparse. unfold accepts_inner.
  unfold bind at 1, try_except, bind at 1, call_parse_args, bind at 1, emit.
  simpl. rewrite Hparse. reflexivity.
Qed.

(** What [inner] does once [parse_args] has returned [pa]. *)
Lemma accepts_after_parse_success (pa : pyval) :
  parse_args lib _parser (w_req w) = Returns pa ->
  accepts_inner lib _parser schema many func args kwargs w
  = (error <- match schema with
              | Some sch =>
                  json <- get_json ;;
                  r <- call_load sch many json ;;
                  let '(obj, err) := r in
                  error <- (if truthy err
                            then merge_schema_errors VNone err
                            else ret VNone) ;;
                  set_parsed_obj obj ;;;
                  ret error
              | None => ret VNone
              end ;;
     if truthy error then raise_val error
     else call_func func args kwargs)
      (World (w_heap w)
             (Request (req_json (w_req w)) (Some pa) (parsed_obj (w_req w)))
             (w_log w ++ [EvParseArgs])).
Proof.
  intros Hparse. unfold accepts_inner.
  unfold bind at 1, try_except, bind at 1, call_parse_args, bind at 1, emit.
  simpl. rewrite Hparse. reflexivity.
Qed.
End Accepts.

(** The merge that the decorator is written for: when the parser's
    exception carries data whose ["message"] is a dictionary, the schema
    errors are added to that dictionary, the loaded object is put on the
    request, and the parser's own exception object is raised. *)
Lemma accepts_merges_into_message {parser} (lib : Reqparse parser)
    (_parser : parser) (sch : Schema) (many : bool)
    (func : callable) (args : list pyval) (kwargs : list (string * pyval))
    (w : world) (json : pyval) (o : pyobj) (d m : list (string * pyval))
    (obj err : pyval) :
  parse_args lib _parser (w_req w) = Raises o ->
  obj_attrs o !! "data" = Some (VDict d) ->
  dict_get "message" d = Some (VDict m) ->
  req_json (w_req w) = Returns json ->
  load sch many (w_heap w ++ [o]) json = Returns (obj, err) ->
  truthy err = true ->
  accepts_inner lib _parser (Some sch) many func args kwargs w
  = (Raise (List.length (w_heap w)),
     World (w_heap w ++
              [set_attr "data"
                 (VDict (dict_set "message"
                           (VDict (dict_set "schema_errors" err m)) d)) o])
           (Request (req_json (w_req w)) (parsed_args (w_req w)) (Some obj))
           (w_log w ++ [EvParseArgs; EvLoad many json])).
Proof.
  intros Hparse Hdata Hmsg Hjson Hload Herr.
  rewrite (accepts_after_parse_failure _ _ _ _ _ _ _ _ _ Hparse).
  run. rewrite Hload. run. rewrite Herr.
  unfold merge_schema_errors, hasattr, getattr, getitem, update, setattr.
  repeat first [progress run | rewrite alloc_lookup | rewrite Hdata
               | rewrite Hmsg].
  rewrite <- app_assoc. simpl.
  f_equal. f_equal.
  rewrite insert_app_r_alt by lia. by rewrite Nat.sub_diag.
Qed.

(** When the parser's exception has no [data] attribute, the schema errors
    become its data: the same exception object is raised, now with
    [data = {"schema_errors": err}], and the request has the loaded
    object. *)
Lemma accepts_attaches_data_to_bare_error {parser} (lib : Reqparse parser)
    (_parser : parser) (sch : Schema) (many : bool)
    (func : callable) (args : list pyval) (kwargs : list (string * pyval))
    (w : world) (json : pyval) (o : pyobj) (obj err : pyval) :
  parse_args lib _parser (w_req w) = Raises o ->
  obj_attrs o !! "data" = None ->
  req_json (w_req w) = Returns json ->
  load sch many (w_heap w ++ [o]) json = Returns (obj, err) ->
  truthy err = true ->
  accepts_inner lib _parser (Some sch) many func args kwargs w
  = (Raise (List.length (w_heap w)),
     World (w_heap w ++ [set_attr "data" (VDict [("schema_errors", err)]) o])
           (Request (req_json (w_req w)) (parsed_args (w_req w)) (Some obj))
           (w_log w ++ [EvParseArgs; EvLoad many json])).
Proof.
  intros Hparse Hdata Hjson Hload Herr.
  rewrite (accepts_after_parse_failure _ _ _ _ _ _ _ _ _ Hparse).
  run. rewrite Hload. run. rewrite Herr.
  unfold merge_schema_errors, hasattr, getattr, getitem, update, setattr.
  repeat first [progress run | rewrite alloc_lookup | rewrite Hdata].
  rewrite <- app_assoc. simpl.
  f_equal. f_equal.
  rewrite insert_app_r_alt by lia. by rewrite Nat.sub_diag.
Qed.

(** C2, as stated, fails: the schema load does not run in every
    invocation, and what is raised is not always the captured error.  On a
    body that is not JSON, [get_json] raises after the parser's exception
    has been captured: the load is never called, and the exception that
    leaves [inner] is the one of the body, not the captured one. *)
Lemma accepts_malformed_body_counterexample :
  ~ (forall (parser : Type) (lib : Reqparse parser) (_parser : parser)
            (sch : Schema) (many : bool) (func : callable)
            (args : list pyval) (kwargs : list (string * pyval))
            (w : world) (o : pyobj),
        parse_args lib _parser (w_req w) = Raises o ->
        exists w' json,
          accepts_inner lib _parser (Some sch) many func args kwargs w
          = (Raise (List.length (w_heap w)), w') /\
          w_log w' = w_log w ++ [EvParseArgs; EvLoad many json]).
Proof.
  intros H.
  destruct (H _ (recording_parser (Raises bundled_error)) []
              (fixed_schema (Returns (VDict [], name_errors))
                            (Returns (VNone, VNone)))
              false (returning [] (VStr "success")) [] []
              (World [] (Request (Raises malformed_body) None None) [])
              bundled_error eq_refl) as (w' & json & Hrun & Hlog).
  vm_compute in Hrun. discriminate Hrun.
Qed.

(** C2, amended: the request decorator is not fail-fast.  When
    [parse_args] raises, the exception is captured.  Without a schema it is
    raised at the end of [inner].  With a schema, when the body of the
    request decodes and the load returns, the load is called after the
    parser, on the decoded body, its object is put on the request, no
    handler is called, and what [inner] raises at the end is the captured
    exception object itself: as it was when the load reports no error, and
    carrying the schema errors when it reports some and the captured error
    can take them. *)
Theorem accepts_not_fail_fast {parser} (lib : Reqparse parser)
    (_parser : parser) (schema : option Schema) (many : bool)
    (func : callable) (args : list pyval) (kwargs : list (string * pyval))
    (w : world) (o : pyobj) :
  parse_args lib _parser (w_req w) = Raises o ->
  match schema with
  | None =>
      accepts_inner lib _parser None many func args kwargs w
      = (Raise (List.length (w_heap w)),
         World (w_heap w ++ [o]) (w_req w) (w_log w ++ [EvParseArgs]))
  | Some sch =>
      forall json obj err : pyval,
        req_json (w_req w) = Returns json ->
        load sch many (w_heap w ++ [o]) json = Returns (obj, err) ->
        (truthy err = true -> mergeable o = true) ->
        accepts_inner lib _parser (Some sch) many func args kwargs w
        = (Raise (List.length (w_heap w)),
           World (w_heap w ++
                    [if truthy err then with_schema_errors err o else o])
                 (Request (req_json (w_req w)) (parsed_args (w_req w))
                          (Some obj))
                 (w_log w ++ [EvParseArgs; EvLoad many json]))
  end.
Proof.
  intros Hparse. destruct schema as [sch|].
  - intros json obj err Hjson Hload Hmerge.
    destruct (truthy err) eqn:Herr.
    + specialize (Hmerge eq_refl).
      unfold mergeable in Hmerge. unfold with_schema_errors.
      destruct (obj_attrs o !! "data") as [data|] eqn:Hdata.
      * destruct data as [| | | | |d|]; try discriminate Hmerge.
        destruct (dict_get "message" d) as [message|] eqn:Hmsg;
          [|discriminate Hmerge].
        destruct message as [| | | | |m|]; try discriminate Hmerge.
        by apply accepts_merges_into_message.
      * by apply accepts_attaches_data_to_bare_error.
    + rewrite (accepts_after_parse_failure _ _ _ _ _ _ _ _ _ Hparse).
      run. rewrite Hload. run. rewrite Herr. run.
      by rewrite <- app_assoc.
  - rewrite (accepts_after_parse_failure _ _ _ _ _ _ _ _ _ Hparse).
    by run.
Qed.

Lemma accepts_not_fail_fast_witness :
  let lib := recording_parser (Raises bundled_error) in
  let sch := fixed_schema (Returns (VDict [], name_errors)) (Returns (VNone, VNone)) in
  let w := empty_world (VDict []) in
  parse_args lib [] (w_req w) = Raises bundled_error /\
  req_json (w_req w) = Returns (VDict []) /\
  load sch false (w_heap w ++ [bundled_error]) (VDict [])
  = Returns (VDict [], name_errors) /\
  (truthy name_errors = true -> mergeable bundled_error = true) /\
  accepts_inner lib [] (Some sch) false (returning [] (VStr "success")) [] [] w
  = (Raise 0,
     World ([] ++ [if truthy name_errors
                   then with_schema_errors name_errors bundled_error
                   else bundled_error])
           (Request (Returns (VDict [])) None (Some (VDict [])))
           ([] ++ [EvParseArgs; EvLoad false (VDict [])])).
Proof.
  intros lib sch w. do 3 (split; [reflexivity|]).
  split; [intros _; reflexivity|].
  apply (accepts_not_fail_fast lib [] (Some sch) false
           (returning [] (VStr "success")) [] [] w bundled_error eq_refl
           (VDict []) (VDict []) name_errors eq_refl eq_refl).
  intros _. reflexivity.
Defined.

(** C7: when neither step fails, [inner] sets [request.parsed_args] to the
    parsed arguments and, when a schema is configured, [request.parsed_obj]
    to the loaded object, and only then calls the handler, in that world;
    whatever the handler does (its result or its exception, its heap and
    its request) is the outcome of [inner]. *)
Theorem accepts_attaches_then_calls {parser} (lib : Reqparse parser)
    (_parser : parser) (schema : option Schema) (many : bool)
    (func : callable) (args : list pyval) (kwargs : list (string * pyval))
    (w : world) (pa : pyval) :
  parse_args lib _parser (w_req w) = Returns pa ->
  match schema with
  | Some sch =>
      forall json obj err,
        req_json (w_req w) = Returns json ->
        load sch many (w_heap w) json = Returns (obj, err) ->
        truthy err = false ->
        accepts_inner lib _parser schema many func args kwargs w
        = call_func func args kwargs
            (attached w pa (Some obj) [EvParseArgs; EvLoad many json])
  | None =>
      accepts_inner lib _parser schema many func args kwargs w
      = call_func func args kwargs
          (attached w pa (parsed_obj (w_req w)) [EvParseArgs])
  end.
Proof.
  intros Hparse. destruct schema as [sch|].
  - intros json obj err Hjson Hload Herr.
    rewrite (accepts_after_parse_success _ _ _ _ _ _ _ _ _ Hparse).
    unfold attached. run. rewrite Hload. run. rewrite Herr. run.
    by rewrite <- !app_assoc.
  - rewrite (accepts_after_parse_success _ _ _ _ _ _ _ _ _ Hparse).
    unfold attached. by run.
Qed.

Lemma accepts_attaches_then_calls_witness :
  let pa := VDict [("foo", VInt 3)] in
  let lib := recording_parser (Returns pa) in
  let sch := fixed_schema (Returns (VDict [("id", VInt 1)], VDict []))
                          (Returns (VNone, VNone)) in
  let w := empty_world (VDict [("id", VInt 1)]) in
  parse_args lib [] (w_req w) = Returns pa /\
  req_json (w_req w) = Returns (VDict [("id", VInt 1)]) /\
  load sch false (w_heap w) (VDict [("id", VInt 1)])
  = Returns (VDict [("id", VInt 1)], VDict []) /\
  truthy (VDict []) = false /\
  accepts_inner lib [] (Some sch) false (returning [] (VStr "success")) [] [] w
  = (Ok (VStr "success"),
     World [] (Request (Returns (VDict [("id", VInt 1)])) (Some pa)
                       (Some (VDict [("id", VInt 1)])))
           [EvParseArgs; EvLoad false (VDict [("id", VInt 1)]); EvHandler [] []]).
Proof.
  intros pa lib sch w. repeat (split; [reflexivity|]).
  rewrite (accepts_attaches_then_calls lib [] (Some sch) false
             (returning [] (VStr "success")) [] [] w pa eq_refl
             (VDict [("id", VInt 1)]) (VDict [("id", VInt 1)]) (VDict [])
             eq_refl eq_refl eq_refl).
  reflexivity.
Defined.

(** C1 at a failing input.  The parser's exception carries the data of a
    [flask_restplus] parser, where ["message"] is a text, and the schema
    reports an error for [name].  [inner] does not raise an aggregated
    error: the call of [update] on the text raises an [AttributeError],
    which carries no data, and the data of the parser's exception holds no
    schema errors. *)
Theorem accepts_text_message_loses_both_errors :
  let lib := recording_parser (Raises restplus_error) in
  let sch := fixed_schema (Returns (VDict [], name_errors)) (Returns (VNone, VNone)) in
  let run := accepts_inner lib [] (Some sch) false
               (returning [] (VStr "success")) [] [] (empty_world (VDict [])) in
  fst run = Raise 1 /\
  class_of (w_heap (snd run)) 1 = Some "AttributeError" /\
  attr_of (w_heap (snd run)) 1 "data" = None /\
  class_of (w_heap (snd run)) 0 = Some "BadRequest" /\
  (forall data, attr_of (w_heap (snd run)) 0 "data" = Some data ->
                schema_errors_in data = None).
Proof.
  vm_compute. repeat split. intros data [= <-]. reflexivity.
Qed.

(** C9 at the same failing input: a schema is configured and its [load]
    returned an object, yet [request.parsed_obj] is not assigned, because
    the [AttributeError] leaves [inner] before the assignment. *)
Theorem accepts_text_message_skips_parsed_obj :
  let lib := recording_parser (Raises restplus_error) in
  let sch := fixed_schema (Returns (VDict [], name_errors)) (Returns (VNone, VNone)) in
  let run := accepts_inner lib [] (Some sch) false
               (returning [] (VStr "success")) [] [] (empty_world (VDict [])) in
  load sch false [restplus_error] (VDict []) = Returns (VDict [], name_errors) /\
  (exists e, fst run = Raise e) /\
  parsed_obj (w_req (snd run)) = None.
Proof.
  vm_compute. repeat split. by exists 1.
Qed.

(** * Further properties of the request decorator *)

(** ** Dictionaries *)

Lemma dict_get_set_eq (k : string) (v : pyval) (d : list (string * pyval)) :
  dict_get k (dict_set k v d) = Some v.
Proof.
  induction d as [|[k' v'] d IH]; simpl.
  - by rewrite String.eqb_refl.
  - destruct (String.eqb k k') eqn:E; simpl.
    + by rewrite String.eqb_refl.
    + by rewrite E.
Qed.

Lemma dict_get_set_ne (k k' : string) (v : pyval) (d : list (string * pyval)) :
  k <> k' -> dict_get k' (dict_set k v d) = dict_get k' d.
Proof.
  intros Hne. induction d as [|[k0 v0] d IH]; simpl.
  - destruct (String.eqb_spec k' k); [congruence | done].
  - destruct (String.eqb_spec k k0) as [->|Hk]; simpl.
    + destruct (String.eqb_spec k' k0); [congruence | done].
    + destruct (String.eqb_spec k' k0); [done | apply IH].
Qed.

Lemma set_attr_other (k k' : string) (v : pyval) (o : pyobj) :
  k' <> k -> obj_attrs (set_attr k v o) !! k' = obj_attrs o !! k'.
Proof. intros Hne. unfold set_attr. simpl. by rewrite lookup_insert_ne. Qed.

(** ** Both steps fail: where the schema errors go *)

(** When the parser's exception carries data whose ["message"] entry is a
    dictionary, [inner] raises that same exception object; afterwards the
    message dictionary holds the schema errors under ["schema_errors"]
    and still holds every argument error, every other entry of the data
    and every other attribute of the exception is kept, and the request
    has the loaded object. *)
Theorem accepts_merge_keeps_argument_errors {parser} (lib : Reqparse parser)
    (_parser : parser) (sch : Schema) (many : bool)
    (func : callable) (args : list pyval) (kwargs : list (string * pyval))
    (w : world) (json : pyval) (o : pyobj) (d m : list (string * pyval))
    (obj err : pyval) :
  parse_args lib _parser (w_req w) = Raises o ->
  obj_attrs o !! "data" = Some (VDict d) ->
  dict_get "message" d = Some (VDict m) ->
  req_json (w_req w) = Returns json ->
  load sch many (w_heap w ++ [o]) json = Returns (obj, err) ->
  truthy err = true ->
  exists w' d' m',
    accepts_inner lib _parser (Some sch) many func args kwargs w
    = (Raise (List.length (w_heap w)), w') /\
    attr_of (w_heap w') (List.length (w_heap w)) "data" = Some (VDict d') /\
    dict_get "message" d' = Some (VDict m') /\
    dict_get "schema_errors" m' = Some err /\
    (forall k, k <> "schema_errors" -> dict_get k m' = dict_get k m) /\
    (forall k, k <> "message" -> dict_get k d' = dict_get k d) /\
    (forall k, k <> "data" ->
               attr_of (w_heap w') (List.length (w_heap w)) k = obj_attrs o !! k) /\
    parsed_obj (w_req w') = Some obj.
Proof.
  intros Hparse Hdata Hmsg Hjson Hload Herr.
  eexists _, _, _. split.
  - by apply accepts_merges_into_message with (d := d) (m := m).
  - simpl. unfold attr_of. rewrite alloc_lookup.
    split; [apply lookup_insert_eq|].
    split; [apply dict_get_set_eq|].
    split; [apply dict_get_set_eq|].
    split; [intros k Hk; by apply dict_get_set_ne|].
    split; [intros k Hk; by apply dict_get_set_ne|].
    split; [intros k Hk; by apply set_attr_other | done].
Qed.

Lemma accepts_merge_keeps_argument_errors_witness :
  let lib := recording_parser (Raises bundled_error) in
  let sch := fixed_schema (Returns (VDict [], name_errors)) (Returns (VNone, VNone)) in
  let w := empty_world (VDict []) in
  let m := [("foo", VStr "A required foo")] in
  parse_args lib [] (w_req w) = Raises bundled_error /\
  obj_attrs bundled_error !! "data" = Some (VDict [("message", VDict m)]) /\
  dict_get "message" [("message", VDict m)] = Some (VDict m) /\
  req_json (w_req w) = Returns (VDict []) /\
  load sch false (w_heap w ++ [bundled_error]) (VDict [])
  = Returns (VDict [], name_errors) /\
  truthy name_errors = true /\
  exists w' d' m',
    accepts_inner lib [] (Some sch) false (returning [] (VStr "success")) [] [] w
    = (Raise 0, w') /\
    attr_of (w_heap w') 0 "data" = Some (VDict d') /\
    dict_get "message" d' = Some (VDict m') /\
    dict_get "schema_errors" m' = Some name_errors /\
    dict_get "foo" m' = Some (VStr "A required foo").
Proof.
  intros lib sch w m. repeat (split; [reflexivity|]).
  destruct (accepts_merge_keeps_argument_errors lib [] sch false
              (returning [] (VStr "success")) [] [] w (VDict []) bundled_error
              [("message", VDict m)] m (VDict []) name_errors
              eq_refl eq_refl eq_refl eq_refl eq_refl eq_refl)
    as (w' & d' & m' & Hrun & Hd & Hm & Hs & Hkeep & _).
  exists w', d', m'. repeat (split; [assumption|]).
  rewrite (Hkeep "foo") by discriminate. reflexivity.
Defined.

(** When the arguments parse and the schema alone reports errors, [inner]
    makes the error itself: a new [ValueError] whose data is
    [{"schema_errors": err}] is raised, after both attributes have been
    put on the request, and the handler is not called. *)
Theorem accepts_assigns_parsed_obj_when_no_parse_error {parser}
    (lib : Reqparse parser) (_parser : parser) (sch : Schema) (many : bool)
    (func : callable) (args : list pyval) (kwargs : list (string * pyval))
    (w : world) (json pa obj err : pyval) :
  parse_args lib _parser (w_req w) = Returns pa ->
  req_json (w_req w) = Returns json ->
  load sch many (w_heap w) json = Returns (obj, err) ->
  truthy err = true ->
  accepts_inner lib _parser (Some sch) many func args kwargs w
  = (Raise (List.length (w_heap w)),
     World (w_heap w ++
              [set_attr "data" (VDict [("schema_errors", err)])
                 (new_exception "ValueError" "Invalid parsing error.")])
           (Request (req_json (w_req w)) (Some pa) (Some obj))
           (w_log w ++ [EvParseArgs; EvLoad many json])).
Proof.
  intros Hparse Hjson Hload Herr.
  rewrite (accepts_after_parse_success _ _ _ _ _ _ _ _ _ Hparse).
  run. rewrite Hload. run. rewrite Herr.
  unfold merge_schema_errors, hasattr, getattr, getitem, update, setattr.
  repeat first [progress run | rewrite alloc_lookup
               | rewrite lookup_singleton_ne by done].
  rewrite <- app_assoc. simpl.
  f_equal. f_equal.
  rewrite insert_app_r_alt by lia. by rewrite Nat.sub_diag.
Qed.

Lemma accepts_assigns_parsed_obj_when_no_parse_error_witness :
  let pa := VDict [("foo", VInt 3)] in
  let lib := recording_parser (Returns pa) in
  let sch := fixed_schema (Returns (VDict [], name_errors)) (Returns (VNone, VNone)) in
  let w := empty_world (VDict []) in
  parse_args lib [] (w_req w) = Returns pa /\
  req_json (w_req w) = Returns (VDict []) /\
  load sch false (w_heap w) (VDict []) = Returns (VDict [], name_errors) /\
  truthy name_errors = true /\
  accepts_inner lib [] (Some sch) false (returning [] (VStr "success")) [] [] w
  = (Raise 0,
     World ([] ++
              [set_attr "data" (VDict [("schema_errors", name_errors)])
                 (new_exception "ValueError" "Invalid parsing error.")])
           (Request (Returns (VDict [])) (Some pa) (Some (VDict [])))
           ([] ++ [EvParseArgs; EvLoad false (VDict [])])).
Proof.
  intros pa lib sch w. repeat (split; [reflexivity|]).
  apply (accepts_assigns_parsed_obj_when_no_parse_error lib [] sch false
           (returning [] (VStr "success")) [] [] w (VDict []) pa (VDict [])
           name_errors); reflexivity.
Defined.

(** When the data of the parser's exception maps ["message"] to anything
    but a dictionary, the call of [update] fails: [inner] raises a new
    [AttributeError], the parser's exception is left as it was, and the
    request is left as it was ([parsed_obj] is not assigned). *)
Theorem accepts_merge_fails_on_non_dict_message {parser}
    (lib : Reqparse parser) (_parser : parser) (sch : Schema) (many : bool)
    (func : callable) (args : list pyval) (kwargs : list (string * pyval))
    (w : world) (json : pyval) (o : pyobj) (d : list (string * pyval))
    (message obj err : pyval) :
  parse_args lib _parser (w_req w) = Raises o ->
  obj_attrs o !! "data" = Some (VDict d) ->
  dict_get "message" d = Some message ->
  is_dict message = false ->
  req_json (w_req w) = Returns json ->
  load sch many (w_heap w ++ [o]) json = Returns (obj, err) ->
  truthy err = true ->
  accepts_inner lib _parser (Some sch) many func args kwargs w
  = (Raise (S (List.length (w_heap w))),
     World (w_heap w ++ [o; new_exception "AttributeError" "update"])
           (w_req w)
           (w_log w ++ [EvParseArgs; EvLoad many json])).
Proof.
  intros Hparse Hdata Hmsg Hnd Hjson Hload Herr.
  rewrite (accepts_after_parse_failure _ _ _ _ _ _ _ _ _ Hparse).
  run. rewrite Hload. run. rewrite Herr.
  unfold merge_schema_errors, hasattr, getattr, getitem, update, setattr.
  repeat first [progress run | rewrite alloc_lookup | rewrite Hdata
               | rewrite Hmsg].
  destruct message; try discriminate Hnd; run;
    rewrite length_app, Nat.add_1_r, <- !app_assoc; done.
Qed.

Lemma accepts_merge_fails_on_non_dict_message_witness :
  let lib := recording_parser (Raises restplus_error) in
  let sch := fixed_schema (Returns (VDict [], name_errors)) (Returns (VNone, VNone)) in
  let w := empty_world (VDict []) in
  let d := [("errors", VDict [("foo", VStr "A required foo")]);
            ("message", VStr "Input payload validation failed")] in
  parse_args lib [] (w_req w) = Raises restplus_error /\
  obj_attrs restplus_error !! "data" = Some (VDict d) /\
  dict_get "message" d = Some (VStr "Input payload validation failed") /\
  is_dict (VStr "Input payload validation failed") = false /\
  req_json (w_req w) = Returns (VDict []) /\
  load sch false (w_heap w ++ [restplus_error]) (VDict [])
  = Returns (VDict [], name_errors) /\
  truthy name_errors = true /\
  accepts_inner lib [] (Some sch) false (returning [] (VStr "success")) [] [] w
  = (Raise 1,
     World ([] ++ [restplus_error; new_exception "AttributeError" "update"])
           (w_req w)
           ([] ++ [EvParseArgs; EvLoad false (VDict [])])).
Proof.
  intros lib sch w d. repeat (split; [reflexivity|]).
  apply (accepts_merge_fails_on_non_dict_message lib [] sch false
           (returning [] (VStr "success")) [] [] w (VDict []) restplus_error d
           (VStr "Input payload validation failed") (VDict []) name_errors);
    reflexivity.
Defined.

(** When the data of the parser's exception is a dictionary without a
    ["message"] entry, the subscript fails: [inner] raises a new
    [KeyError], and the parser's exception and the request are left as they
    were. *)
Theorem accepts_merge_fails_without_message {parser}
    (lib : Reqparse parser) (_parser : parser) (sch : Schema) (many : bool)
    (func : callable) (args : list pyval) (kwargs : list (string * pyval))
    (w : world) (json : pyval) (o : pyobj) (d : list (string * pyval))
    (obj err : pyval) :
  parse_args lib _parser (w_req w) = Raises o ->
  obj_attrs o !! "data" = Some (VDict d) ->
  dict_get "message" d = None ->
  req_json (w_req w) = Returns json ->
  load sch many (w_heap w ++ [o]) json = Returns (obj, err) ->
  truthy err = true ->
  accepts_inner lib _parser (Some sch) many func args kwargs w
  = (Raise (S (List.length (w_heap w))),
     World (w_heap w ++ [o; new_exception "KeyError" "message"])
           (w_req w)
           (w_log w ++ [EvParseArgs; EvLoad many json])).
Proof.
  intros Hparse Hdata Hmsg Hjson Hload Herr.
  rewrite (accepts_after_parse_failure _ _ _ _ _ _ _ _ _ Hparse).
  run. rewrite Hload. run. rewrite Herr.
  unfold merge_schema_errors, hasattr, getattr, getitem, update, setattr.
  repeat first [progress run | rewrite alloc_lookup | rewrite Hdata
               | rewrite Hmsg].
  rewrite length_app, Nat.add_1_r, <- !app_assoc; done.
Qed.

Lemma accepts_merge_fails_without_message_witness :
  let lib := recording_parser (Raises messageless_error) in
  let sch := fixed_schema (Returns (VDict [], name_errors)) (Returns (VNone, VNone)) in
  let w := empty_world (VDict []) in
  let d := [("errors", VDict [("foo", VStr "A required foo")])] in
  parse_args lib [] (w_req w) = Raises messageless_error /\
  obj_attrs messageless_error !! "data" = Some (VDict d) /\
  dict_get "message" d = None /\
  req_json (w_req w) = Returns (VDict []) /\
  load sch false (w_heap w ++ [messageless_error]) (VDict [])
  = Returns (VDict [], name_errors) /\
  truthy name_errors = true /\
  accepts_inner lib [] (Some sch) false (returning [] (VStr "success")) [] [] w
  = (Raise 1,
     World ([] ++ [messageless_error; new_exception "KeyError" "message"])
           (w_req w)
           ([] ++ [EvParseArgs; EvLoad false (VDict [])])).
Proof.
  intros lib sch w d. repeat (split; [reflexivity|]).
  apply (accepts_merge_fails_without_message lib [] sch false
           (returning [] (VStr "success")) [] [] w (VDict []) messageless_error
           d (VDict []) name_errors); reflexivity.
Defined.

(** ** What a failure leaves behind *)

(** When [parse_args] raises, [request.parsed_args] is never assigned:
    whatever the body is and whatever the schema step does, the attribute
    and the body of the request are after [inner] what they were before. *)
Theorem accepts_parse_failure_keeps_parsed_args {parser}
    (lib : Reqparse parser) (_parser : parser) (schema : option Schema)
    (many : bool) (func : callable) (args : list pyval)
    (kwargs : list (string * pyval)) (w : world) (o : pyobj) :
  parse_args lib _parser (w_req w) = Raises o ->
  let w' := snd (accepts_inner lib _parser schema many func args kwargs w) in
  parsed_args (w_req w') = parsed_args (w_req w) /\
  req_json (w_req w') = req_json (w_req w).
Proof.
  intros Hparse. rewrite (accepts_after_parse_failure _ _ _ _ _ _ _ _ _ Hparse).
  destruct schema as [sch|]; [|by run].
  destruct (req_json (w_req w)) as [json|exc0] eqn:Hjson; run; [|done].
  destruct (load sch many (w_heap w ++ [o]) json)
    as [[obj err]|exc]; run; [|done].
  destruct (truthy err); run; [|done].
  destruct (merge_schema_errors (VRef (List.length (w_heap w))) err _)
    as [[e|e] w1] eqn:Hmerge;
    destruct (merge_schema_errors_frame _ _ _ _ _ Hmerge) as [Hreq _];
    simpl in Hreq.
  - destruct (merge_schema_errors_returns _ _ _ _ _ Hmerge) as [_ He].
    rewrite (He eq_refl). run. by rewrite Hreq, Hjson.
  - simpl. by rewrite Hreq.
Qed.

Lemma accepts_parse_failure_keeps_parsed_args_witness :
  let lib := recording_parser (Raises bundled_error) in
  let sch := fixed_schema (Returns (VDict [], name_errors)) (Returns (VNone, VNone)) in
  let w := World [] (Request (Returns (VDict [])) (Some (VStr "stale")) None) [] in
  parse_args lib [] (w_req w) = Raises bundled_error /\
  (let w' := snd (accepts_inner lib [] (Some sch) false
                    (returning [] (VStr "success")) [] [] w) in
   parsed_args (w_req w') = Some (VStr "stale") /\
   req_json (w_req w') = Returns (VDict [])).
Proof.
  intros lib sch w. split; [reflexivity|].
  apply (accepts_parse_failure_keeps_parsed_args lib [] (Some sch) false
           (returning [] (VStr "success")) [] [] w bundled_error eq_refl).
Defined.

(** When the body of the request cannot be decoded, the exception of
    [get_json] leaves [inner] at once: the schema is not asked to load
    anything, a parser exception captured before is dropped,
    [request.parsed_obj] is not assigned and the handler is not called. *)
Theorem accepts_malformed_body_propagates {parser} (lib : Reqparse parser)
    (_parser : parser) (sch : Schema) (many : bool)
    (func : callable) (args : list pyval) (kwargs : list (string * pyval))
    (w : world) (r : outcome pyval) (o : pyobj) :
  parse_args lib _parser (w_req w) = r ->
  req_json (w_req w) = Raises o ->
  accepts_inner lib _parser (Some sch) many func args kwargs w
  = (Raise (List.length (heap_after_parse r (w_heap w))),
     World (heap_after_parse r (w_heap w) ++ [o])
           (req_after_parse r (w_req w))
           (w_log w ++ [EvParseArgs])).
Proof.
  intros Hparse Hjson. destruct r as [pa|exc]; simpl in *.
  - rewrite (accepts_after_parse_success _ _ _ _ _ _ _ _ _ Hparse). by run.
  - rewrite (accepts_after_parse_failure _ _ _ _ _ _ _ _ _ Hparse). by run.
Qed.

Lemma accepts_malformed_body_propagates_witness :
  let lib := recording_parser (Raises bundled_error) in
  let sch := fixed_schema (Returns (VDict [], name_errors)) (Returns (VNone, VNone)) in
  let w := World [] (Request (Raises malformed_body) None None) [] in
  parse_args lib [] (w_req w) = Raises bundled_error /\
  req_json (w_req w) = Raises malformed_body /\
  accepts_inner lib [] (Some sch) false (returning [] (VStr "success")) [] [] w
  = (Raise 1,
     World ([bundled_error] ++ [malformed_body]) (w_req w) ([] ++ [EvParseArgs])).
Proof.
  intros lib sch w. repeat (split; [reflexivity|]).
  apply (accepts_malformed_body_propagates lib [] sch false
           (returning [] (VStr "success")) [] [] w (Raises bundled_error)
           malformed_body); reflexivity.
Defined.

(** When the schema's [load] itself raises, that exception leaves [inner]
    at once: a parser exception captured before is dropped,
    [request.parsed_obj] is not assigned and the handler is not called. *)
Theorem accepts_load_failure_propagates {parser} (lib : Reqparse parser)
    (_parser : parser) (sch : Schema) (many : bool)
    (func : callable) (args : list pyval) (kwargs : list (string * pyval))
    (w : world) (json : pyval) (r : outcome pyval) (o : pyobj) :
  parse_args lib _parser (w_req w) = r ->
  req_json (w_req w) = Returns json ->
  load sch many (heap_after_parse r (w_heap w)) json = Raises o ->
  accepts_inner lib _parser (Some sch) many func args kwargs w
  = (Raise (List.length (heap_after_parse r (w_heap w))),
     World (heap_after_parse r (w_heap w) ++ [o])
           (req_after_parse r (w_req w))
           (w_log w ++ [EvParseArgs; EvLoad many json])).
Proof.
  intros Hparse Hjson Hload. destruct r as [pa|exc]; simpl in *.
  - rewrite (accepts_after_parse_success _ _ _ _ _ _ _ _ _ Hparse).
    run. rewrite Hload. run. by rewrite <- app_assoc.
  - rewrite (accepts_after_parse_failure _ _ _ _ _ _ _ _ _ Hparse).
    run. rewrite Hload. run. do 2 f_equal. by rewrite <- app_assoc.
Qed.

Lemma accepts_load_failure_propagates_witness :
  let boom := new_exception "ValidationError" "strict schema" in
  let lib := recording_parser (Raises bundled_error) in
  let sch := fixed_schema (Raises boom) (Returns (VNone, VNone)) in
  let w := empty_world (VDict []) in
  parse_args lib [] (w_req w) = Raises bundled_error /\
  req_json (w_req w) = Returns (VDict []) /\
  load sch false (heap_after_parse (Raises bundled_error) (w_heap w)) (VDict [])
  = Raises boom /\
  accepts_inner lib [] (Some sch) false (returning [] (VStr "success")) [] [] w
  = (Raise 1,
     World ([bundled_error] ++ [boom]) (w_req w)
           ([] ++ [EvParseArgs; EvLoad false (VDict [])])).
Proof.
  intros boom lib sch w. repeat (split; [reflexivity|]).
  apply (accepts_load_failure_propagates lib [] sch false
           (returning [] (VStr "success")) [] [] w (VDict [])
           (Raises bundled_error) boom); reflexivity.
Defined.

(** A body that the schema rejects never reaches the handler: whenever
    [load] reports errors, whatever [parse_args] did and whether or not the
    errors could be merged, [inner] ends in a raise and the log holds the
    parser call and the load call only. *)
Theorem accepts_schema_errors_block_handler {parser} (lib : Reqparse parser)
    (_parser : parser) (sch : Schema) (many : bool)
    (func : callable) (args : list pyval) (kwargs : list (string * pyval))
    (w : world) (json : pyval) (r : outcome pyval) (obj err : pyval) :
  parse_args lib _parser (w_req w) = r ->
  req_json (w_req w) = Returns json ->
  load sch many (heap_after_parse r (w_heap w)) json = Returns (obj, err) ->
  truthy err = true ->
  exists e w',
    accepts_inner lib _parser (Some sch) many func args kwargs w = (Raise e, w') /\
    w_log w' = w_log w ++ [EvParseArgs; EvLoad many json].
Proof.
  intros Hparse Hjson Hload Herr. destruct r as [pa|exc]; simpl in *.
  - rewrite (accepts_after_parse_success _ _ _ _ _ _ _ _ _ Hparse).
    run. rewrite Hload. run. rewrite Herr.
    destruct (merge_schema_errors VNone err _) as [[e|e] w1] eqn:Hmerge;
      destruct (merge_schema_errors_frame _ _ _ _ _ Hmerge) as [_ Hlog];
      simpl in Hlog.
    + destruct (merge_schema_errors_returns _ _ _ _ _ Hmerge) as [He _].
      rewrite He. destruct e; run;
        (eexists _, _; split; [reflexivity|]);
        simpl; rewrite Hlog; by rewrite <- app_assoc.
    + eexists _, _. split; [reflexivity|].
      rewrite Hlog. by rewrite <- app_assoc.
  - rewrite (accepts_after_parse_failure _ _ _ _ _ _ _ _ _ Hparse).
    run. rewrite Hload. run. rewrite Herr.
    destruct (merge_schema_errors (VRef (List.length (w_heap w))) err _)
      as [[e|e] w1] eqn:Hmerge;
      destruct (merge_schema_errors_frame _ _ _ _ _ Hmerge) as [_ Hlog];
      simpl in Hlog.
    + destruct (merge_schema_errors_returns _ _ _ _ _ Hmerge) as [_ He].
      rewrite (He eq_refl). run. eexists _, _. split; [reflexivity|].
      simpl. rewrite Hlog. by rewrite <- app_assoc.
    + eexists _, _. split; [reflexivity|].
      rewrite Hlog. by rewrite <- app_assoc.
Qed.

Lemma accepts_schema_errors_block_handler_witness :
  let pa := VDict [("foo", VInt 3)] in
  let lib := recording_parser (Returns pa) in
  let sch := fixed_schema (Returns (VDict [], name_errors)) (Returns (VNone, VNone)) in
  let w := empty_world (VDict []) in
  parse_args lib [] (w_req w) = Returns pa /\
  req_json (w_req w) = Returns (VDict []) /\
  load sch false (heap_after_parse (Returns pa) (w_heap w)) (VDict [])
  = Returns (VDict [], name_errors) /\
  truthy name_errors = true /\
  exists e w',
    accepts_inner lib [] (Some sch) false (returning [] (VStr "success")) [] [] w
    = (Raise e, w') /\
    w_log w' = [] ++ [EvParseArgs; EvLoad false (VDict [])].
Proof.
  intros pa lib sch w. repeat (split; [reflexivity|]).
  apply (accepts_schema_errors_block_handler lib [] sch false
           (returning [] (VStr "success")) [] [] w (VDict []) (Returns pa)
           (VDict []) name_errors); reflexivity.
Defined.

(** * Further properties of the decoration step *)

(** A dictionary argument that has a ["location"] entry of its own makes
    the call of [add_argument] ill-formed (the keyword is given twice):
    building the parser raises a [TypeError] without calling
    [add_argument] for it or for any later argument, whatever stands
    before it that is not a dictionary. *)
Theorem accepts_rejects_location_key {parser} (lib : Reqparse parser)
    (api : option (Api parser)) (before rest : list pyval)
    (d : list (string * pyval)) (v : pyval) :
  Forall (fun a => is_dict a = false) before ->
  dict_get "location" d = Some v ->
  accepts_parser lib api (before ++ VDict d :: rest)
  = Raises (new_exception "TypeError"
              "got multiple values for keyword argument 'location'").
Proof.
  intros Hbefore Hloc. unfold accepts_parser.
  rewrite query_params_app.
  assert (Hnil : query_params before = []).
  { induction before as [|a before IH]; [done|].
    inversion Hbefore as [|? ? Ha Hrest]; subst.
    unfold query_params in *. simpl. rewrite Ha. by apply IH. }
  rewrite Hnil. simpl. by rewrite Hloc.
Qed.

Lemma accepts_rejects_location_key_witness :
  Forall (fun a => is_dict a = false) [VStr "foo"] /\
  dict_get "location" [("name", VStr "foo"); ("location", VStr "json")]
  = Some (VStr "json") /\
  accepts_parser (recording_parser (Returns VNone)) None
    ([VStr "foo"] ++
     VDict [("name", VStr "foo"); ("location", VStr "json")] ::
     [VDict [("name", VStr "bar")]])
  = Raises (new_exception "TypeError"
              "got multiple values for keyword argument 'location'").
Proof.
  split; [by repeat constructor|]. split; [reflexivity|].
  apply (accepts_rejects_location_key (recording_parser (Returns VNone)) None
           [VStr "foo"] [VDict [("name", VStr "bar")]]
           [("name", VStr "foo"); ("location", VStr "json")] (VStr "json")).
  - by repeat constructor.
  - reflexivity.
Defined.




(** * Further properties of the response decorator *)

(** [responds] used without a schema (the default of the keyword) cannot
    serialize anything: whenever the handler returns a value that is not a
    framework response, [inner] raises a [TypeError] from the call of
    [None], after the handler has run and before any attribute of the
    returned value is read; nothing is dumped and nothing is written. *)
Theorem responds_without_schema_raises (fl : FlaskLib) (many : bool)
    (wrapper : option string) (func : callable)
    (args : list pyval) (kwargs : list (string * pyval))
    (w : world) (rv : pyval) (h1 : heap) (q1 : request) :
  call func args kwargs (w_heap w) (w_req w) = (Ok rv, h1, q1) ->
  isinstance h1 rv Response = false ->
  responds fl None many wrapper func args kwargs w
  = (Raise (List.length h1),
     World (h1 ++ [new_exception "TypeError" "'NoneType' object is not callable"])
           q1 (w_log w ++ [EvHandler args kwargs])).
Proof.
  intros Hcall Hresp.
  rewrite (responds_after_call _ _ _ _ _ _ _ _ _ _ _ Hcall).
  simpl. rewrite Hresp. by destruct (is_carrier wrapper h1 rv).
Qed.

Lemma responds_without_schema_raises_witness :
  let func := building ["self"] (Wrapper_init two_records (VInt 201)) in
  let w := empty_world VNone in
  let h1 := [Wrapper_init two_records (VInt 201)] in
  call func [] [] (w_heap w) (w_req w) = (Ok (VRef 0), h1, w_req w) /\
  isinstance h1 (VRef 0) Response = false /\
  responds echo_flask None true (Some Wrapper) func [] [] w
  = (Raise 1,
     World (h1 ++ [new_exception "TypeError" "'NoneType' object is not callable"])
           (w_req w) ([] ++ [EvHandler [] []])).
Proof.
  intros func w h1. repeat (split; [reflexivity|]).
  apply (responds_without_schema_raises echo_flask true (Some Wrapper) func
           [] [] w (VRef 0) h1 (w_req w)); reflexivity.
Defined.

(** An instance of the carrier type that has no [value] attribute makes
    [inner] raise an [AttributeError] before the schema is asked to dump
    anything; the heap gains the exception only. *)
Theorem responds_carrier_without_value_raises (fl : FlaskLib) (sch : Schema)
    (many : bool) (wrapper : option string) (func : callable)
    (args : list pyval) (kwargs : list (string * pyval))
    (w : world) (rv : pyval) (h1 : heap) (q1 : request) :
  call func args kwargs (w_heap w) (w_req w) = (Ok rv, h1, q1) ->
  isinstance h1 rv Response = false ->
  dumped_value wrapper h1 rv = None ->
  responds fl (Some sch) many wrapper func args kwargs w
  = (Raise (List.length h1),
     World (h1 ++ [new_exception "AttributeError" "value"]) q1
           (w_log w ++ [EvHandler args kwargs])).
Proof.
  intros Hcall Hresp Hv.
  rewrite (responds_after_call _ _ _ _ _ _ _ _ _ _ _ Hcall).
  simpl. rewrite Hresp. unfold dumped_value in Hv.
  destruct (is_carrier wrapper h1 rv); [|discriminate Hv].
  unfold getattr. destruct rv as [| | | | | |l]; run; try reflexivity.
  unfold attr_of in Hv. destruct (h1 !! l) as [o|]; [|reflexivity].
  by rewrite Hv.
Qed.

Lemma responds_carrier_without_value_raises_witness :
  let o := PyObj [Wrapper; "object"] {[ "status" := VInt 201 ]} in
  let func := building [] o in
  let sch := fixed_schema (Returns (VNone, VNone)) (Returns (two_dumped, VDict [])) in
  let w := empty_world VNone in
  call func [] [] (w_heap w) (w_req w) = (Ok (VRef 0), [o], w_req w) /\
  isinstance [o] (VRef 0) Response = false /\
  dumped_value (Some Wrapper) [o] (VRef 0) = None /\
  responds echo_flask (Some sch) true (Some Wrapper) func [] [] w
  = (Raise 1,
     World ([o] ++ [new_exception "AttributeError" "value"]) (w_req w)
           ([] ++ [EvHandler [] []])).
Proof.
  intros o func sch w. repeat (split; [reflexivity|]).
  apply (responds_carrier_without_value_raises echo_flask sch true
           (Some Wrapper) func [] [] w (VRef 0) [o] (w_req w)); reflexivity.
Defined.

(** For a handler without a [self] parameter, an exception of [jsonify]
    (the payload cannot be encoded) leaves [inner] as it is, after the one
    [dump] call; no response object is allocated. *)
Theorem responds_jsonify_failure_propagates (fl : FlaskLib) (sch : Schema)
    (many : bool) (wrapper : option string) (func : callable)
    (args : list pyval) (kwargs : list (string * pyval))
    (w : world) (rv : pyval) (h1 : heap) (q1 : request)
    (serialized errors : pyval) (o : pyobj) :
  call func args kwargs (w_heap w) (w_req w) = (Ok rv, h1, q1) ->
  isinstance h1 rv Response = false ->
  is_carrier wrapper h1 rv = false ->
  dump sch many h1 rv = Returns (serialized, errors) ->
  "self" ∉ params func ->
  jsonify fl h1 serialized = Raises o ->
  responds fl (Some sch) many wrapper func args kwargs w
  = (Raise (List.length h1),
     World (h1 ++ [o]) q1
           (w_log w ++ [EvHandler args kwargs; EvDump many rv;
                        EvJsonify serialized])).
Proof.
  intros Hcall Hresp Hcar Hdump Hself Hjson.
  rewrite (responds_after_call _ _ _ _ _ _ _ _ _ _ _ Hcall).
  simpl. rewrite Hresp, Hcar.
  run. rewrite Hdump. run. unfold _is_method.
  rewrite bool_decide_eq_false_2 by done. run.
  rewrite Hjson. run. by rewrite <- !app_assoc.
Qed.

Lemma responds_jsonify_failure_propagates_witness :
  let func := returning ["id"] two_records in
  let sch := fixed_schema (Returns (VNone, VNone))
                          (Returns (VList [VRef 7], VDict [])) in
  let w := empty_world VNone in
  call func [] [] (w_heap w) (w_req w) = (Ok two_records, [], w_req w) /\
  isinstance [] two_records Response = false /\
  is_carrier None [] two_records = false /\
  dump sch true [] two_records = Returns (VList [VRef 7], VDict []) /\
  ("self" ∉ params func) /\
  jsonify echo_flask [] (VList [VRef 7]) = Raises not_serializable /\
  responds echo_flask (Some sch) true None func [] [] w
  = (Raise 0,
     World ([] ++ [not_serializable]) (w_req w)
           ([] ++ [EvHandler [] []; EvDump true two_records;
                   EvJsonify (VList [VRef 7])])).
Proof.
  intros func sch w.
  assert (Hr : "self" ∉ params func)
    by (apply (bool_decide_unpack ("self" ∉ params func)); vm_compute; exact I).
  do 6 (split; [first [reflexivity | assumption]|]).
  apply (responds_jsonify_failure_propagates echo_flask sch true None func
           [] [] w two_records [] (w_req w) (VList [VRef 7]) (VDict [])
           not_serializable eq_refl eq_refl eq_refl eq_refl Hr eq_refl).
Defined.

(** * The carrier on its way to the client *)

(** What [inner] of [responds] does in the carrier branch, as one run. *)
Lemma responds_carrier_run (fl : FlaskLib) (sch : Schema) (many : bool)
    (W : string)
    (func : callable) (args : list pyval) (kwargs : list (string * pyval))
    (w : world) (l : loc) (o : pyobj) (h1 : heap) (q1 : request)
    (value serialized errors : pyval) :
  call func args kwargs (w_heap w) (w_req w) = (Ok (VRef l), h1, q1) ->
  h1 !! l = Some o ->
  isinstance h1 (VRef l) Response = false ->
  isinstance h1 (VRef l) W = true ->
  obj_attrs o !! "value" = Some value ->
  dump sch many h1 value = Returns (serialized, errors) ->
  responds fl (Some sch) many (Some W) func args kwargs w
  = (Ok (VRef l),
     World (<[l := set_attr "value" serialized o]> h1) q1
           (w_log w ++ [EvHandler args kwargs; EvDump many value])).
Proof.
  intros Hcall Hl Hresp Hcar Hval Hdump.
  rewrite (responds_after_call _ _ _ _ _ _ _ _ _ _ _ Hcall).
  simpl. rewrite Hresp, Hcar.
  unfold getattr, setattr. run. rewrite Hl, Hval. run. rewrite Hdump. run.
  rewrite Hl. by rewrite <- app_assoc.
Qed.

(** [Wrapper.to_response] on a carrier whose body can be encoded: a new
    response is allocated, built from the encoded [value] and from the
    carrier's [status] with the JSON mimetype; the carrier and every other
    object stay as they were, and so do the request and the log. *)
Lemma to_response_run (fl : FlaskLib) (w : world) (l : loc) (o resp : pyobj)
    (value status body : pyval) :
  w_heap w !! l = Some o ->
  obj_attrs o !! "value" = Some value ->
  obj_attrs o !! "status" = Some status ->
  json_dumps fl (w_heap w) value = Returns body ->
  new_Response fl body status (VStr "application/json") = Returns resp ->
  to_response fl (VRef l) w
  = (Ok (VRef (List.length (w_heap w))),
     World (w_heap w ++ [resp]) (w_req w) (w_log w)).
Proof.
  intros Hl Hval Hstatus Hbody Hresp.
  unfold to_response, getattr. run. rewrite Hl, Hval. run.
  rewrite Hbody. run. rewrite Hl, Hstatus. run. by rewrite Hresp.
Qed.

(** The two halves together, as in the test application: a handler under
    [responds] with the carrier type [Wrapper] returns a direct instance of
    it, and [ApiFlask.make_response] turns what [inner] returns into the
    response.  The response is built from the encoding of the dumped value
    (not of the records the handler returned) and from the status the handler
    chose; the schema is asked once; the carrier ends with the dumped value
    in its slot. *)
Theorem responds_then_make_response (fl : FlaskLib) (sch : Schema)
    (many : bool) (func : callable)
    (flask_make_response overriding : pyval -> M pyval)
    (args : list pyval) (kwargs : list (string * pyval))
    (w : world) (l : loc) (o resp : pyobj) (h1 : heap) (q1 : request)
    (value status serialized errors body : pyval) :
  call func args kwargs (w_heap w) (w_req w) = (Ok (VRef l), h1, q1) ->
  h1 !! l = Some o ->
  obj_mro o = [Wrapper; "object"] ->
  obj_attrs o !! "to_response" = None ->
  obj_attrs o !! "value" = Some value ->
  obj_attrs o !! "status" = Some status ->
  dump sch many h1 value = Returns (serialized, errors) ->
  json_dumps fl (<[l := set_attr "value" serialized o]> h1) serialized
  = Returns body ->
  new_Response fl body status (VStr "application/json") = Returns resp ->
  (rv <- responds fl (Some sch) many (Some Wrapper) func args kwargs ;;
   make_response fl flask_make_response overriding rv) w
  = (Ok (VRef (List.length h1)),
     World (<[l := set_attr "value" serialized o]> h1 ++ [resp]) q1
           (w_log w ++ [EvHandler args kwargs; EvDump many value])).
Proof.
  intros Hcall Hl Hmro Hnometh Hval Hstatus Hdump Hbody Hresp.
  assert (Hlt : l < List.length h1) by (by apply lookup_lt_Some with o).
  assert (Hl' : <[l := set_attr "value" serialized o]> h1 !! l
                = Some (set_attr "value" serialized o))
    by (by rewrite list_lookup_insert_eq).
  unfold bind at 1.
  rewrite (responds_carrier_run fl sch many Wrapper func args kwargs w l o h1
             q1 value serialized errors Hcall Hl); [| | |done|done].
  - unfold make_response, call_to_response, isinstance. simpl.
    rewrite Hl'. simpl. rewrite Hmro. simpl.
    rewrite lookup_insert_ne by done. rewrite Hnometh. simpl.
    rewrite (to_response_run fl _ l (set_attr "value" serialized o) resp
               serialized status body); simpl; try done.
    + by rewrite length_insert.
    + apply lookup_insert_eq.
    + by rewrite lookup_insert_ne.
  - unfold isinstance. simpl. by rewrite Hl, Hmro.
  - unfold isinstance. simpl. by rewrite Hl, Hmro.
Qed.

Lemma responds_then_make_response_witness :
  let c := Wrapper_init two_records (VInt 201) in
  let func := building [] c in
  let sch := fixed_schema (Returns (VNone, VNone)) (Returns (two_dumped, VDict [])) in
  let w := empty_world VNone in
  let resp := PyObj ["flask.wrappers.Response"; Response; "object"]
                {[ "data" := two_dumped; "status" := VInt 201;
                   "mimetype" := VStr "application/json" ]} in
  call func [] [] (w_heap w) (w_req w) = (Ok (VRef 0), [c], w_req w) /\
  [c] !! 0 = Some c /\
  obj_mro c = [Wrapper; "object"] /\
  obj_attrs c !! "to_response" = None /\
  obj_attrs c !! "value" = Some two_records /\
  obj_attrs c !! "status" = Some (VInt 201) /\
  dump sch true [c] two_records = Returns (two_dumped, VDict []) /\
  json_dumps echo_flask (<[0 := set_attr "value" two_dumped c]> [c]) two_dumped
  = Returns two_dumped /\
  new_Response echo_flask two_dumped (VInt 201) (VStr "application/json")
  = Returns resp /\
  (rv <- responds echo_flask (Some sch) true (Some Wrapper) func [] [] ;;
   make_response echo_flask ret ret rv) w
  = (Ok (VRef 1),
     World (<[0 := set_attr "value" two_dumped c]> [c] ++ [resp]) (w_req w)
           ([] ++ [EvHandler [] []; EvDump true two_records])).
Proof.
  intros c func sch w resp. do 9 (split; [reflexivity|]).
  apply (responds_then_make_response echo_flask sch true func ret ret [] [] w 0
           c resp [c] (w_req w) two_records (VInt 201) two_dumped (VDict [])
           two_dumped); reflexivity.
Defined.
